(** * ScryptoKitty: 64 bytes to Base58

    A shallow embedding of [64byteToBase58.py] and the verification of its
    encoder ([bytes_to_int], [encode_base58]) and of its input validation
    ([parse_input], [main]).

    Python values are modelled as follows.
    - [int] is [Z] (unbounded).
    - [str] is [string]; a character stands for the code point of the same
      number, so the model covers the texts whose code points are below 256.
    - a list of strings is [list string].
    - a raised exception is the [Raise] case of [result]; what [print]
      writes is collected, in order, in the first component of [prog]. *)

From Equations Require Import Equations.
From Stdlib Require Import ZArith List String Ascii Bool Lia.
Import ListNotations.

Local Open Scope string_scope.
Local Open Scope Z_scope.

(** ** Exceptions and the two monads of the script *)

(** The [ValueError]s that can occur, by the text they carry. *)
Inductive value_error : Type :=
| InvalidLiteral (base : Z) (s : string)
    (* invalid literal for int() with base {base}: {s!r} *)
| ByteOutOfRange
    (* Byte out of range (0-255). *)
| ByteMustBeInRange.
    (* byte must be in range(0, 256) *)

Inductive exn : Type :=
| ValueError (e : value_error)
| IndexError
| SystemExit (code : Z).

Inductive result (A : Type) : Type :=
| Ok (a : A)
| Raise (e : exn).
Arguments Ok {A} a.
Arguments Raise {A} e.

Definition rbind {A B} (m : result A) (f : A -> result B) : result B :=
  match m with
  | Ok a => f a
  | Raise e => Raise e
  end.

Declare Scope result_scope.
Delimit Scope result_scope with result.
Notation "x <- m ;; k" := (rbind m (fun x => k))
  (at level 61, m at next level, right associativity) : result_scope.
Local Open Scope result_scope.

(** What the script writes on standard output, one constructor per [print]
    (and the prompt of [input]). *)
Inductive message : Type :=
| MsgPrompt
    (* Enter your 64 byte values (e.g. [00, 1a, ff, ...]):\n *)
| MsgLengthError (got : nat)
    (* Error: exactly 64 bytes are required, but got {got}. *)
| MsgByteError (token : string) (e : value_error)
    (* Error parsing byte '{token}': {e} *)
| MsgHeader
    (* Base58 encoded string: *)
| MsgEncoded (base58_str : string).

(** A computation that prints: the lines written, then how it ended. *)
Definition prog (A : Type) : Type := (list message * result A)%type.

Definition pret {A} (a : A) : prog A := ([], Ok a).

Definition pbind {A B} (m : prog A) (f : A -> prog B) : prog B :=
  match m with
  | (out, Ok a) => let (out', r) := f a in ((out ++ out')%list, r)
  | (out, Raise e) => (out, Raise e)
  end.

Declare Scope prog_scope.
Delimit Scope prog_scope with prog.
Notation "x <-- m ;; k" := (pbind m (fun x => k))
  (at level 61, m at next level, right associativity) : prog_scope.
Notation "m ;;; k" := (pbind m (fun _ => k))
  (at level 61, right associativity) : prog_scope.
Local Open Scope prog_scope.

Definition print (m : message) : prog unit := ([m], Ok tt).
Definition sys_exit {A} (code : Z) : prog A := ([], Raise (SystemExit code)).
Definition lift {A} (r : result A) : prog A := ([], r).

(** ** Termination of the division loops *)

(** The number of binary digits of a positive number: the measure under
    which repeated division ends. *)
Definition bits (z : Z) : nat :=
  match z with
  | Zpos p => Pos.size_nat p
  | _ => O
  end.

(** Dividing a positive number by 2 or more shortens it. *)
Ltac division_decreases :=
  match goal with
  | |- (bits (?n / ?d) < bits ?n)%nat =>
      let Hmono := fresh "Hmono" in
      let Hhalf := fresh "Hhalf" in
      assert (Hmono : forall a b, 0 <= a <= b -> (bits a <= bits b)%nat)
        by (intros [|p|p] [|q|q]; simpl; try lia; intros ?;
            destruct (Pos.eq_dec p q) as [->|?];
            [apply le_n | apply Pos.size_nat_monotone; lia]);
      assert (Hhalf : forall k, 0 < k -> (bits (Z.div2 k) < bits k)%nat)
        by (intros [|[p|p|]|]; simpl; lia);
      apply Nat.le_lt_trans with (bits (Z.div2 n));
      [ apply Hmono; rewrite Z.div2_div; split;
        [apply Z.div_pos; lia | apply Z.div_le_compat_l; lia]
      | apply Hhalf; lia ]
  end.

(** ** The built-ins of Python the script calls *)

Module Py.

Definition ord (c : ascii) : Z := Z.of_N (N_of_ascii c).

(** [str.isspace] on one character (code points below 256). *)
Definition isspace (c : ascii) : bool :=
  let n := ord c in
  ((9 <=? n) && (n <=? 13)) || ((28 <=? n) && (n <=? 32))
  || (n =? 133) || (n =? 160).

(** [str.lower] on one character (code points below 256). *)
Definition lower_char (c : ascii) : ascii :=
  let n := ord c in
  if ((65 <=? n) && (n <=? 90))
     || ((192 <=? n) && (n <=? 222) && negb (n =? 215))
  then ascii_of_N (Z.to_N (n + 32))
  else c.

Fixpoint lower (s : string) : string :=
  match s with
  | EmptyString => EmptyString
  | String c r => String (lower_char c) (lower r)
  end.

Fixpoint lstrip (s : string) : string :=
  match s with
  | EmptyString => EmptyString
  | String c r => if isspace c then lstrip r else s
  end.

Fixpoint rstrip (s : string) : string :=
  match s with
  | EmptyString => EmptyString
  | String c r =>
      match rstrip r with
      | EmptyString => if isspace c then EmptyString else String c EmptyString
      | r' => String c r'
      end
  end.

(** [s.strip()] *)
Definition strip (s : string) : string := rstrip (lstrip s).

(** [s.startswith(p)] *)
Definition startswith (s p : string) : bool := String.prefix p s.

Fixpoint rev_string (s : string) : string :=
  match s with
  | EmptyString => EmptyString
  | String c r => rev_string r ++ String c EmptyString
  end.

(** [s.endswith(p)] *)
Definition endswith (s p : string) : bool :=
  String.prefix (rev_string p) (rev_string s).

(** [s[n:]] for [n >= 0] *)
Fixpoint drop (n : nat) (s : string) : string :=
  match n, s with
  | O, _ => s
  | S k, EmptyString => EmptyString
  | S k, String _ r => drop k r
  end.

Fixpoint drop_last (s : string) : string :=
  match s with
  | EmptyString => EmptyString
  | String c EmptyString => EmptyString
  | String c r => String c (drop_last r)
  end.

(** [s[1:-1]] *)
Definition slice_1_m1 (s : string) : string := drop_last (drop 1 s).

(** [s.split(sep)] for a one-character separator: never empty. *)
Fixpoint split (sep : ascii) (s : string) : list string :=
  match s with
  | EmptyString => [EmptyString]
  | String c r =>
      if Ascii.eqb c sep then EmptyString :: split sep r
      else match split sep r with
           | h :: t => String c h :: t
           | [] => [String c EmptyString]
           end
  end.

(** [c in s] for a character [c] *)
Fixpoint contains (s : string) (c : ascii) : bool :=
  match s with
  | EmptyString => false
  | String d r => Ascii.eqb c d || contains r c
  end.

(** [any(f(c) for c in s)] *)
Fixpoint any (f : ascii -> bool) (s : string) : bool :=
  match s with
  | EmptyString => false
  | String c r => f c || any f r
  end.

(** [s * n] *)
Fixpoint repeat_string (s : string) (n : nat) : string :=
  match n with
  | O => EmptyString
  | S k => s ++ repeat_string s k
  end.

Definition mul (s : string) (n : Z) : string := repeat_string s (Z.to_nat n).

(** [s[i]]: negative indices count from the end, [IndexError] outside. *)
Definition index (s : string) (i : Z) : result ascii :=
  let len := Z.of_nat (String.length s) in
  let j := if i <? 0 then i + len else i in
  if (j <? 0) || (len <=? j) then Raise IndexError
  else match String.get (Z.to_nat j) s with
       | Some c => Ok c
       | None => Raise IndexError
       end.

(** *** [int(s, base)]

    After CPython's [PyLong_FromUnicodeObject] and [PyLong_FromString],
    for [base] 10 and 16.  The interpreter's optional cap on the number of
    decimal digits ([sys.set_int_max_str_digits]) is taken as switched
    off. *)

(** The C locale's [isspace], which [int] uses around the number. *)
Definition c_isspace (c : ascii) : bool :=
  let n := ord c in ((9 <=? n) && (n <=? 13)) || (n =? 32).

(** Non-ASCII white space is first turned into a blank, other non-ASCII
    characters (none is a decimal digit below 256) into a question mark. *)
Definition to_ascii_char (c : ascii) : ascii :=
  if ord c <? 127 then c
  else if isspace c then " "%char
  else "?"%char.

Fixpoint to_ascii (s : string) : string :=
  match s with
  | EmptyString => EmptyString
  | String c r => String (to_ascii_char c) (to_ascii r)
  end.

Fixpoint is_ascii (s : string) : bool :=
  match s with
  | EmptyString => true
  | String c r => (ord c <? 128) && is_ascii r
  end.

(** The value of a digit in bases up to 36; 37 for any other character. *)
Definition digit_value (c : ascii) : Z :=
  let n := ord c in
  if (48 <=? n) && (n <=? 57) then n - 48
  else if (97 <=? n) && (n <=? 122) then n - 97 + 10
  else if (65 <=? n) && (n <=? 90) then n - 65 + 10
  else 37.

Fixpoint skip_c_space (s : string) : string :=
  match s with
  | EmptyString => EmptyString
  | String c r => if c_isspace c then skip_c_space r else s
  end.

(** The scan over digits and underscores: the value so far, the last
    character seen ([zero] when none) and the text left; [None] on a doubled
    underscore. *)
Fixpoint scan_digits (base : Z) (prev : ascii) (acc : Z) (s : string)
  : option (Z * ascii * string) :=
  match s with
  | EmptyString => Some (acc, prev, s)
  | String c r =>
      if Ascii.eqb c "_" then
        if Ascii.eqb prev "_" then None else scan_digits base c acc r
      else if digit_value c <? base then
        scan_digits base c (acc * base + digit_value c) r
      else Some (acc, prev, s)
  end.

Definition long_from_string_base (base : Z) (s : string) : option Z :=
  match s with
  | String "_" _ => None
  | _ =>
      match scan_digits base zero 0 s with
      | None => None
      | Some (v, prev, rest) =>
          if Ascii.eqb prev "_" then None
          else if Ascii.eqb prev zero then None
          else match skip_c_space rest with
               | EmptyString => Some v
               | _ => None
               end
      end
  end.

Definition skip_prefix (base : Z) (s : string) : string :=
  match s with
  | String "0" (String x r) =>
      if (base =? 16) && (Ascii.eqb x "x" || Ascii.eqb x "X") then
        match r with
        | String "_" r' => r'
        | _ => r
        end
      else s
  | _ => s
  end.

Definition long_from_string (base : Z) (s : string) : option Z :=
  let s := skip_c_space s in
  let (sign, s) :=
    match s with
    | String "+" r => (1, r)
    | String "-" r => (-1, r)
    | _ => (1, s)
    end in
  match long_from_string_base base (skip_prefix base s) with
  | Some v => Some (sign * v)
  | None => None
  end.

Definition hex_char (d : Z) : ascii :=
  match String.get (Z.to_nat d) "0123456789abcdef" with
  | Some c => c
  | None => "?"%char
  end.

(** The hexadecimal digits of a positive number, in front of [acc]. *)
Equations? hex_digits (n : Z) (acc : string) : string by wf (bits n) lt :=
  hex_digits n acc with Z_gt_dec n 0 => {
    | left _ := hex_digits (n / 16) (String (hex_char (n mod 16)) acc);
    | right _ := acc }.
Proof. division_decreases. Qed.

(** [f"{val:02x}"]: sign, then zeros up to a width of two, then the
    lower-case hexadecimal digits. *)
Definition format_02x (val : Z) : string :=
  let digits := if val =? 0 then "0" else hex_digits (Z.abs val) "" in
  let sign := if val <? 0 then "-" else "" in
  sign ++ repeat_string "0" (2 - String.length sign - String.length digits)
       ++ digits.

(** [[f(x) for x in l]] where [f] may raise. *)
Fixpoint comprehension {A B} (f : A -> result B) (l : list A)
  : result (list B) :=
  match l with
  | [] => Ok []
  | x :: r => y <- f x ;; ys <- comprehension f r ;; Ok (y :: ys)
  end.

(** [bytearray(l)] for a list of integers. *)
Fixpoint bytearray (l : list Z) : result (list Z) :=
  match l with
  | [] => Ok []
  | x :: r =>
      if (0 <=? x) && (x <? 256)
      then (ys <- bytearray r ;; Ok (x :: ys))
      else Raise (ValueError ByteMustBeInRange)
  end.

(** [int.from_bytes(b, byteorder='big')] *)
Definition from_bytes_big (b : list Z) : Z :=
  fold_left (fun acc x => acc * 256 + x) b 0.

Definition int (s : string) (base : Z) : result Z :=
  match long_from_string base (if is_ascii s then s else to_ascii s) with
  | Some v => Ok v
  | None => Raise (ValueError (InvalidLiteral base s))
  end.

End Py.

(** ** The script *)

Definition BASE58_ALPHABET : string :=
  "123456789ABCDEFGHJKLMNPQRSTUVWXYZabcdefghijkmnopqrstuvwxyz".

(** The first lines of [parse_input]: brackets and surrounding blanks are
    removed and the text is split at the commas. *)
Definition split_input (input_str : string) : list string :=
  let input_str := Py.strip input_str in
  let input_str :=
    if Py.startswith input_str "[" && Py.endswith input_str "]"
    then Py.slice_1_m1 input_str else input_str in
  Py.split "," input_str.

(** The token of a part: stripped, and without a leading [0x]. *)
Definition token_of (part : string) : string :=
  let token := Py.strip part in
  if Py.startswith token "0x" || Py.startswith token "0X"
  then Py.drop 2 token else token.

(** The integer a token is read as: hexadecimal when a letter a-f occurs in
    it, decimal otherwise. *)
Definition token_value (token : string) : result Z :=
  if Py.any (fun c => Py.contains (Py.lower token) c) "abcdef"
  then Py.int token 16
  else Py.int token 10.

(** The body of the [try]: the two-digit text appended for a token. *)
Definition parse_token (token : string) : result string :=
  val <- token_value token ;;
  if negb ((0 <=? val) && (val <=? 255))
  then Raise (ValueError ByteOutOfRange)
  else Ok (Py.format_02x val).

(** The loop over the parts; a [ValueError] is caught, reported and ends the
    program. *)
Fixpoint parse_parts (parts : list string) (byte_list : list string)
  : prog (list string) :=
  match parts with
  | [] => pret byte_list
  | part :: rest =>
      let token := token_of part in
      match parse_token token with
      | Ok hex_byte => parse_parts rest (byte_list ++ [hex_byte])%list
      | Raise (ValueError e) => print (MsgByteError token e) ;;; sys_exit 1
      | Raise e => lift (Raise e)
      end
  end.

Definition parse_input (input_str : string) : prog (list string) :=
  let parts := split_input input_str in
  if negb (List.length parts =? 64)%nat
  then print (MsgLengthError (List.length parts)) ;;; sys_exit 1
  else parse_parts parts [].

Definition bytes_to_int (byte_list : list string) : result Z :=
  int_bytes <- Py.comprehension (fun x => Py.int x 16) byte_list ;;
  b <- Py.bytearray int_bytes ;;
  Ok (Py.from_bytes_big b).

(** The [while num > 0] loop of [encode_base58]. *)
Equations? encode_loop (num : Z) (encoded : string) : result string
  by wf (bits num) lt :=
  encode_loop num encoded with Z_gt_dec num 0 => {
    | left _ with Py.index BASE58_ALPHABET (num mod 58) => {
        | Ok c := encode_loop (num / 58) (String c encoded);
        | Raise e := Raise e };
    | right _ := Ok encoded }.
Proof. division_decreases. Qed.

(** The [for hex_byte in byte_list] loop of [encode_base58]. *)
Fixpoint count_loop (byte_list : list string) (n_leading_zeros : Z)
  : result Z :=
  match byte_list with
  | [] => Ok n_leading_zeros
  | hex_byte :: rest =>
      v <- Py.int hex_byte 16 ;;
      if v =? 0 then count_loop rest (n_leading_zeros + 1)
      else Ok n_leading_zeros
  end.

Definition encode_base58 (byte_list : list string) : result string :=
  num <- bytes_to_int byte_list ;;
  encoded <- encode_loop num "" ;;
  n_leading_zeros <- count_loop byte_list 0 ;;
  one <- Py.index BASE58_ALPHABET 0 ;;
  Ok (Py.mul (String one "") n_leading_zeros ++ encoded).

Definition main (user_input : string) : prog unit :=
  print MsgPrompt ;;;
  byte_list <-- parse_input user_input ;;
  base58_str <-- lift (encode_base58 byte_list) ;;
  print MsgHeader ;;;
  print (MsgEncoded base58_str).

(** The encoder on byte values: each value in the two-digit form in which
    [parse_input] hands it over, then [encode_base58]. *)
Definition encode (bytes : list Z) : result string :=
  encode_base58 (map Py.format_02x bytes).

(** ** The notions of the specification *)

Definition is_byte (x : Z) : Prop := 0 <= x <= 255.

(** A valid input of the encoder: 64 values, each a byte. *)
Definition valid_input (bytes : list Z) : Prop :=
  List.length bytes = 64%nat /\ Forall is_byte bytes.

(** The unsigned big-endian base-256 number a byte sequence denotes: the
    first byte is the most significant one. *)
Fixpoint magnitude (bytes : list Z) : Z :=
  match bytes with
  | [] => 0
  | x :: r => x * 256 ^ Z.of_nat (List.length r) + magnitude r
  end.

(** The length of the run of zero bytes that starts at index 0. *)
Fixpoint leading_zeros (bytes : list Z) : nat :=
  match bytes with
  | [] => O
  | x :: r => if x =? 0 then S (leading_zeros r) else O
  end.

(** The symbol of the alphabet at a position. *)
Definition base58_char (d : Z) : ascii :=
  match String.get (Z.to_nat d) BASE58_ALPHABET with
  | Some c => c
  | None => "?"%char
  end.

(** The base-58 digit string of a number: empty for 0, and otherwise the
    digits of the quotient by 58 followed by the symbol of the remainder. *)
Equations? base58_digits (m : Z) : string by wf (bits m) lt :=
  base58_digits m with Z_gt_dec m 0 => {
    | left _ := base58_digits (m / 58) ++ String (base58_char (m mod 58)) "";
    | right _ := "" }.
Proof. division_decreases. Qed.

(** Membership of a character in a text. *)
Definition char_in (c : ascii) (s : string) : Prop :=
  In c (list_ascii_of_string s).

(** A two-digit hexadecimal text and the byte it denotes. *)
Definition is_hex_digit (c : ascii) : bool := Py.digit_value c <? 16.

Definition two_digit_hex (s : string) : Prop :=
  exists a b, s = String a (String b "")
              /\ is_hex_digit a = true /\ is_hex_digit b = true.

Definition hex_byte_value (s : string) : Z :=
  match s with
  | String a (String b _) => 16 * Py.digit_value a + Py.digit_value b
  | _ => 0
  end.

(** *** A decoder

    Not part of the script: the usual inverse of the encoding, against which
    the round trip is stated. *)

(** The position of a symbol in the alphabet. *)
Fixpoint find_char (c : ascii) (s : string) (i : Z) : option Z :=
  match s with
  | EmptyString => None
  | String d r => if Ascii.eqb c d then Some i else find_char c r (i + 1)
  end.

Definition base58_index (c : ascii) : option Z :=
  find_char c BASE58_ALPHABET 0.

(** The number a digit string denotes, most significant digit first. *)
Fixpoint base58_value (s : string) (acc : Z) : option Z :=
  match s with
  | EmptyString => Some acc
  | String c r =>
      match base58_index c with
      | Some d => base58_value r (acc * 58 + d)
      | None => None
      end
  end.

Fixpoint count_ones (s : string) : nat :=
  match s with
  | String "1" r => S (count_ones r)
  | _ => O
  end.

(** The shortest big-endian byte sequence of a number (empty for 0). *)
Equations? int_to_bytes (m : Z) : list Z by wf (bits m) lt :=
  int_to_bytes m with Z_gt_dec m 0 => {
    | left _ := (int_to_bytes (m / 256) ++ [m mod 256])%list;
    | right _ := [] }.
Proof. division_decreases. Qed.

Definition decode (s : string) : option (list Z) :=
  match base58_value s 0 with
  | Some v => Some (repeat 0 (count_ones s) ++ int_to_bytes v)%list
  | None => None
  end.




(** *** Auxiliary lists and functions of the proofs *)

(** Every character. *)
Definition all_chars : list ascii :=
  map (fun n => ascii_of_nat n) (seq 0 256).

(** The hexadecimal and the decimal digits. *)
Definition hex_chars : list ascii :=
  list_ascii_of_string "0123456789abcdefABCDEF".



(** *** Sample inputs *)

(** Two zero bytes, then 0xFF, then 61 bytes 7. *)
Definition sample_bytes : list Z := (0 :: 0 :: 255 :: repeat 7 61)%list.

(** A first byte that is not zero. *)
Definition sample_bytes_nonzero_head : list Z := (1 :: repeat 0 63)%list.


(** The number of occurrences of a character in a text. *)
Fixpoint count_char (c : ascii) (s : string) : nat :=
  match s with
  | EmptyString => O
  | String d r => if Ascii.eqb d c then S (count_char c r) else count_char c r
  end.

(** *** Parts of an input text *)

(** The integer a part of the text stands for (0 when it has none). *)
Definition part_value (part : string) : Z :=
  match token_value (token_of part) with
  | Ok v => v
  | Raise _ => 0
  end.

(** Whether a part is read as a byte. *)
Definition part_ok (part : string) : bool :=
  match token_value (token_of part) with
  | Ok v => (0 <=? v) && (v <=? 255)
  | Raise _ => false
  end.

(** Whether a character is one of the letters a-f, in either case. *)
Definition hex_letter (c : ascii) : bool :=
  (10 <=? Py.digit_value c) && (Py.digit_value c <? 16).


(** A text of 63 parts [0x00] and a last part [1], in brackets. *)
Definition sample_text_ok : string :=
  "[" ++ Py.repeat_string "0x00, " 63 ++ "1]".

(** * Verification *)

(** ** Unfolding the loops *)

Lemma encode_loop_eq num encoded :
  encode_loop num encoded =
  if 0 <? num
  then c <- Py.index BASE58_ALPHABET (num mod 58) ;;
       encode_loop (num / 58) (String c encoded)
  else Ok encoded.
Proof.
  rewrite encode_loop_equation_1. unfold encode_loop_unfold_clause_1.
  destruct (Z_gt_dec num 0); destruct (Z.ltb_spec 0 num); try lia; try reflexivity.
  unfold rbind. destruct (Py.index BASE58_ALPHABET (num mod 58)); reflexivity.
Qed.

Lemma base58_digits_eq m :
  base58_digits m =
  if 0 <? m then base58_digits (m / 58) ++ String (base58_char (m mod 58)) ""
  else "".
Proof.
  rewrite base58_digits_equation_1. unfold base58_digits_unfold_clause_1.
  destruct (Z_gt_dec m 0); destruct (Z.ltb_spec 0 m); try lia; reflexivity.
Qed.

Lemma int_to_bytes_eq m :
  int_to_bytes m =
  if 0 <? m then (int_to_bytes (m / 256) ++ [m mod 256])%list else [].
Proof.
  rewrite int_to_bytes_equation_1. unfold int_to_bytes_unfold_clause_1.
  destruct (Z_gt_dec m 0); destruct (Z.ltb_spec 0 m); try lia; reflexivity.
Qed.

(** ** Texts *)

Lemma string_app_assoc (s t u : string) : (s ++ t) ++ u = s ++ (t ++ u).
Proof. induction s as [|c s IH]; cbn; [reflexivity | now rewrite IH]. Qed.

Lemma string_app_nil_r (s : string) : s ++ "" = s.
Proof. induction s as [|c s IH]; cbn; [reflexivity | now rewrite IH]. Qed.

Lemma string_length_app (s t : string) :
  String.length (s ++ t) = (String.length s + String.length t)%nat.
Proof. induction s as [|c s IH]; cbn; [reflexivity | now rewrite IH]. Qed.

Lemma chars_app (s t : string) :
  list_ascii_of_string (s ++ t)
  = (list_ascii_of_string s ++ list_ascii_of_string t)%list.
Proof. induction s as [|c s IH]; cbn; [reflexivity | now rewrite IH]. Qed.

Lemma char_in_app c s t : char_in c (s ++ t) <-> char_in c s \/ char_in c t.
Proof. unfold char_in. rewrite chars_app. apply in_app_iff. Qed.

(** ** Checking a property on a range of numbers or on every character *)

Lemma range_check (P : Z -> bool) (n : nat) :
  forallb P (map Z.of_nat (seq 0 n)) = true ->
  forall r, 0 <= r < Z.of_nat n -> P r = true.
Proof.
  intros H r Hr. rewrite forallb_forall in H. apply H.
  apply in_map_iff. exists (Z.to_nat r). split; [lia|].
  apply in_seq. lia.
Qed.

Lemma char_check (P : ascii -> bool) :
  forallb P all_chars = true -> forall c, P c = true.
Proof.
  intros H c. rewrite forallb_forall in H. apply H.
  apply in_map_iff. exists (nat_of_ascii c). split.
  - apply ascii_nat_embedding.
  - apply in_seq. pose proof (nat_ascii_bounded c). lia.
Qed.

(** ** The alphabet *)

Lemma alphabet_index r :
  0 <= r < 58 -> Py.index BASE58_ALPHABET r = Ok (base58_char r).
Proof.
  intros Hr.
  pose (P := fun r => match Py.index BASE58_ALPHABET r with
                      | Ok c => Ascii.eqb c (base58_char r)
                      | Raise _ => false
                      end).
  assert (HP : P r = true) by (apply (range_check P 58); [vm_compute; reflexivity | lia]).
  unfold P in HP. destruct (Py.index BASE58_ALPHABET r); [|discriminate].
  apply Ascii.eqb_eq in HP. now subst.
Qed.

Lemma base58_char_in_alphabet r :
  0 <= r < 58 -> char_in (base58_char r) BASE58_ALPHABET.
Proof.
  intros Hr.
  pose (P := fun r => if in_dec ascii_dec (base58_char r)
                            (list_ascii_of_string BASE58_ALPHABET)
                      then true else false).
  assert (HP : P r = true) by (apply (range_check P 58); [vm_compute; reflexivity | lia]).
  unfold P in HP. unfold char_in.
  destruct (in_dec ascii_dec _ _); [assumption | discriminate].
Qed.

Lemma base58_index_char r :
  0 <= r < 58 -> base58_index (base58_char r) = Some r.
Proof.
  intros Hr.
  pose (P := fun r => match base58_index (base58_char r) with
                      | Some d => d =? r
                      | None => false
                      end).
  assert (HP : P r = true) by (apply (range_check P 58); [vm_compute; reflexivity | lia]).
  unfold P in HP. destruct (base58_index (base58_char r)); [|discriminate].
  apply Z.eqb_eq in HP. now subst.
Qed.

Lemma base58_char_one r :
  0 < r < 58 -> base58_char r <> "1"%char.
Proof.
  intros Hr E.
  pose proof (base58_index_char r ltac:(lia)) as H.
  rewrite E in H. vm_compute in H. injection H as H. lia.
Qed.

(** ** The conversion loop computes the digit string *)

Lemma mod58_range m : 0 <= m mod 58 < 58.
Proof. apply Z.mod_pos_bound. lia. Qed.

Lemma pos_induction (P : Z -> Prop) :
  (forall m, (forall k, 0 <= k < m -> P k) -> P m) -> forall m, P m.
Proof.
  intros H m. induction m as [m IH] using (well_founded_induction (Z.lt_wf 0)).
  apply H. intros k Hk. apply IH. lia.
Qed.

Lemma div_range m d : 0 < m -> 2 <= d -> 0 <= m / d < m.
Proof.
  intros Hm Hd. split; [apply Z.div_pos; lia | apply Z.div_lt; lia].
Qed.

Lemma encode_loop_digits num :
  forall encoded, encode_loop num encoded = Ok (base58_digits num ++ encoded).
Proof.
  induction num as [num IH] using pos_induction. intros encoded.
  rewrite encode_loop_eq, base58_digits_eq.
  destruct (Z.ltb_spec 0 num) as [Hpos|Hle]; [|reflexivity].
  rewrite alphabet_index by apply mod58_range. cbn [rbind].
  rewrite IH by (apply div_range; lia).
  rewrite string_app_assoc. reflexivity.
Qed.

(** The digit string denotes the number it was made from. *)
Lemma base58_value_app s t acc :
  base58_value (s ++ t) acc =
  match base58_value s acc with
  | Some v => base58_value t v
  | None => None
  end.
Proof.
  revert acc. induction s as [|c s IH]; intros acc;
    cbn [append base58_value]; [reflexivity|].
  destruct (base58_index c); [apply IH | reflexivity].
Qed.

Lemma base58_value_digits m :
  0 <= m -> base58_value (base58_digits m) 0 = Some m.
Proof.
  induction m as [m IH] using pos_induction. intros Hm.
  rewrite base58_digits_eq.
  destruct (Z.ltb_spec 0 m) as [Hpos|Hle]; [|cbn; f_equal; lia].
  rewrite base58_value_app, IH by (apply div_range; lia || apply Z.div_pos; lia).
  cbn [base58_value]. rewrite base58_index_char by apply mod58_range.
  f_equal. pose proof (Z.div_mod m 58). lia.
Qed.

(** The digit string of a positive number does not begin with the symbol of
    zero. *)
Lemma base58_digits_head m :
  0 < m -> exists c r, base58_digits m = String c r /\ c <> "1"%char.
Proof.
  induction m as [m IH] using pos_induction. intros Hm.
  rewrite base58_digits_eq.
  destruct (Z.ltb_spec 0 m) as [_|]; [|lia].
  destruct (Z.eq_dec (m / 58) 0) as [E|NE].
  - rewrite E, base58_digits_eq. cbn.
    exists (base58_char (m mod 58)), "". split; [reflexivity|].
    apply base58_char_one.
    pose proof (Z.div_mod m 58). pose proof (mod58_range m). lia.
  - destruct (IH (m / 58)) as (c & r & E & Hc).
    + apply div_range; lia.
    + pose proof (div_range m 58). lia.
    + rewrite E. cbn. eauto.
Qed.

Lemma base58_digits_alphabet m c :
  char_in c (base58_digits m) -> char_in c BASE58_ALPHABET.
Proof.
  revert c. induction m as [m IH] using pos_induction. intros c.
  rewrite base58_digits_eq.
  destruct (Z.ltb_spec 0 m) as [Hpos|Hle]; [|intros []].
  rewrite char_in_app. intros [H|H].
  - apply (IH (m / 58)); [apply div_range; lia | assumption].
  - destruct H as [<-|[]]. apply base58_char_in_alphabet, mod58_range.
Qed.

Lemma base58_digits_length_mono a b :
  a <= b ->
  (String.length (base58_digits a) <= String.length (base58_digits b))%nat.
Proof.
  revert a. induction b as [b IH] using pos_induction. intros a Hab.
  rewrite (base58_digits_eq a), (base58_digits_eq b).
  destruct (Z.ltb_spec 0 a) as [Ha|Ha]; [|cbn; lia].
  destruct (Z.ltb_spec 0 b) as [Hb|Hb]; [|lia].
  rewrite !string_length_app. cbn.
  enough (String.length (base58_digits (a / 58))
          <= String.length (base58_digits (b / 58)))%nat by lia.
  apply IH; [apply div_range; lia | apply Z.div_le_mono; lia].
Qed.

(** ** Two-digit hexadecimal texts *)

Lemma hex_digit_cases c : is_hex_digit c = true -> In c hex_chars.
Proof.
  intros H.
  pose (P := fun c => implb (is_hex_digit c) (existsb (Ascii.eqb c) hex_chars)).
  assert (HP : P c = true) by (apply char_check; vm_compute; reflexivity).
  unfold P in HP. rewrite H in HP. cbn [implb] in HP.
  apply existsb_exists in HP. destruct HP as (d & Hd & E).
  apply Ascii.eqb_eq in E. now subst.
Qed.

Lemma digit_value_nonneg c : 0 <= Py.digit_value c.
Proof.
  pose (P := fun c => 0 <=? Py.digit_value c).
  assert (HP : P c = true) by (apply char_check; vm_compute; reflexivity).
  unfold P in HP. lia.
Qed.

Lemma int_two_digit_hex a b :
  is_hex_digit a = true -> is_hex_digit b = true ->
  Py.int (String a (String b "")) 16 = Ok (16 * Py.digit_value a + Py.digit_value b).
Proof.
  intros Ha Hb. apply hex_digit_cases in Ha, Hb.
  pose (P := fun a b => match Py.int (String a (String b "")) 16 with
                        | Ok v => v =? 16 * Py.digit_value a + Py.digit_value b
                        | Raise _ => false
                        end).
  assert (HP : forallb (fun a => forallb (P a) hex_chars) hex_chars = true)
    by (vm_compute; reflexivity).
  rewrite forallb_forall in HP. specialize (HP a Ha).
  rewrite forallb_forall in HP. specialize (HP b Hb).
  unfold P in HP. destruct (Py.int _ 16); [|discriminate].
  f_equal. lia.
Qed.

Lemma two_digit_hex_int s :
  two_digit_hex s -> Py.int s 16 = Ok (hex_byte_value s).
Proof.
  intros (a & b & -> & Ha & Hb). now apply int_two_digit_hex.
Qed.

Lemma two_digit_hex_byte s : two_digit_hex s -> is_byte (hex_byte_value s).
Proof.
  intros (a & b & -> & Ha & Hb). unfold is_byte, is_hex_digit in *.
  apply Z.ltb_lt in Ha, Hb. cbn [hex_byte_value].
  pose proof (digit_value_nonneg a). pose proof (digit_value_nonneg b). lia.
Qed.

(** What [parse_input] appends for a byte value is such a text, and it
    denotes the value. *)
Lemma format_02x_byte v :
  is_byte v ->
  two_digit_hex (Py.format_02x v) /\ hex_byte_value (Py.format_02x v) = v.
Proof.
  intros Hv.
  pose (P := fun v => match Py.format_02x v with
                      | String a (String b EmptyString) =>
                          is_hex_digit a && is_hex_digit b
                          && (16 * Py.digit_value a + Py.digit_value b =? v)
                      | _ => false
                      end).
  assert (HP : P v = true)
    by (apply (range_check P 256); [vm_compute; reflexivity | unfold is_byte in Hv; lia]).
  unfold P in HP.
  destruct (Py.format_02x v) as [|a [|b [|? ?]]]; try discriminate.
  apply andb_prop in HP. destruct HP as [HP Hv'].
  apply andb_prop in HP. destruct HP as [Ha Hb]. apply Z.eqb_eq in Hv'.
  split; [exists a, b; auto | exact Hv'].
Qed.

Lemma format_02x_bytes bytes :
  Forall is_byte bytes ->
  Forall two_digit_hex (map Py.format_02x bytes)
  /\ map hex_byte_value (map Py.format_02x bytes) = bytes.
Proof.
  induction 1 as [|v r Hv Hr [IH1 IH2]]; cbn; [split; constructor|].
  destruct (format_02x_byte v Hv) as [H1 H2]. split.
  - now constructor.
  - now rewrite H2, IH2.
Qed.

(** ** [bytes_to_int] *)

Lemma comprehension_hex byte_list :
  Forall two_digit_hex byte_list ->
  Py.comprehension (fun x => Py.int x 16) byte_list
  = Ok (map hex_byte_value byte_list).
Proof.
  induction 1 as [|s r Hs Hr IH]; cbn; [reflexivity|].
  rewrite (two_digit_hex_int s Hs). cbn. rewrite IH. reflexivity.
Qed.

Lemma bytearray_bytes l : Forall is_byte l -> Py.bytearray l = Ok l.
Proof.
  induction 1 as [|x r Hx Hr IH]; cbn; [reflexivity|].
  unfold is_byte in Hx.
  destruct (Z.leb_spec 0 x), (Z.ltb_spec x 256); try lia. cbn.
  rewrite IH. reflexivity.
Qed.

Lemma fold_from_bytes l acc :
  fold_left (fun acc x => acc * 256 + x) l acc
  = acc * 256 ^ Z.of_nat (List.length l) + magnitude l.
Proof.
  revert acc. induction l as [|x r IH]; intros acc.
  - cbn. lia.
  - cbn [fold_left magnitude List.length]. rewrite IH.
    rewrite Nat2Z.inj_succ, Z.pow_succ_r by lia. ring.
Qed.

Lemma from_bytes_big_magnitude l : Py.from_bytes_big l = magnitude l.
Proof. unfold Py.from_bytes_big. rewrite fold_from_bytes. lia. Qed.

Lemma bytes_to_int_hex byte_list :
  Forall two_digit_hex byte_list ->
  bytes_to_int byte_list = Ok (magnitude (map hex_byte_value byte_list)).
Proof.
  intros H. unfold bytes_to_int. rewrite comprehension_hex by assumption.
  cbn [rbind]. rewrite bytearray_bytes.
  - cbn [rbind]. now rewrite from_bytes_big_magnitude.
  - apply Forall_map. eapply Forall_impl; [|exact H].
    apply two_digit_hex_byte.
Qed.

(** ** The count of leading zero bytes *)

Lemma count_loop_hex byte_list n :
  Forall two_digit_hex byte_list ->
  count_loop byte_list n
  = Ok (n + Z.of_nat (leading_zeros (map hex_byte_value byte_list))).
Proof.
  intros H. revert n. induction H as [|s r Hs Hr IH]; intros n.
  - cbn. f_equal. lia.
  - cbn [count_loop map leading_zeros]. rewrite (two_digit_hex_int s Hs).
    cbn [rbind]. destruct (hex_byte_value s =? 0).
    + rewrite IH. f_equal. lia.
    + f_equal. cbn. lia.
Qed.

Lemma mul_one n :
  Py.mul "1" (Z.of_nat n) = Py.repeat_string "1" n.
Proof. unfold Py.mul. now rewrite Nat2Z.id. Qed.

(** ** [encode_base58] on two-digit hexadecimal texts, of any number *)

Lemma encode_base58_hex byte_list :
  Forall two_digit_hex byte_list ->
  encode_base58 byte_list
  = Ok (Py.repeat_string "1" (leading_zeros (map hex_byte_value byte_list))
        ++ base58_digits (magnitude (map hex_byte_value byte_list))).
Proof.
  intros H. unfold encode_base58.
  rewrite bytes_to_int_hex by assumption. cbn [rbind].
  rewrite encode_loop_digits. cbn [rbind].
  rewrite count_loop_hex by assumption. cbn [rbind].
  change (Py.index BASE58_ALPHABET 0) with (@Ok ascii "1"%char). cbn [rbind].
  rewrite Z.add_0_l, mul_one, string_app_nil_r. reflexivity.
Qed.

Lemma encode_bytes bytes :
  Forall is_byte bytes ->
  encode bytes
  = Ok (Py.repeat_string "1" (leading_zeros bytes)
        ++ base58_digits (magnitude bytes)).
Proof.
  intros H. unfold encode.
  destruct (format_02x_bytes bytes H) as [H1 H2].
  rewrite encode_base58_hex by assumption. now rewrite H2.
Qed.

(** ** Facts about byte sequences *)

Lemma is_byte_check l :
  forallb (fun x => (0 <=? x) && (x <=? 255)) l = true -> Forall is_byte l.
Proof.
  intros H. rewrite forallb_forall in H. apply Forall_forall. intros x Hx.
  specialize (H x Hx). unfold is_byte. lia.
Qed.

Lemma valid_input_check l :
  (List.length l =? 64)%nat
  && forallb (fun x => (0 <=? x) && (x <=? 255)) l = true ->
  valid_input l.
Proof.
  intros H. apply andb_prop in H. destruct H as [Hlen Hb].
  split; [now apply Nat.eqb_eq | now apply is_byte_check].
Qed.

Lemma magnitude_range l :
  Forall is_byte l -> 0 <= magnitude l < 256 ^ Z.of_nat (List.length l).
Proof.
  induction 1 as [|x r Hx Hr IH].
  - cbn. lia.
  - cbn [magnitude List.length]. rewrite Nat2Z.inj_succ, Z.pow_succ_r by lia.
    unfold is_byte in Hx. nia.
Qed.

Lemma leading_zeros_head x r : x <> 0 -> leading_zeros (x :: r) = O.
Proof. intros Hx. cbn. destruct (Z.eqb_spec x 0); [contradiction | reflexivity]. Qed.

Lemma repeat_one_chars n c :
  char_in c (Py.repeat_string "1" n) -> c = "1"%char.
Proof.
  induction n as [|n IH]; cbn; [intros [] | intros [H|H]]; auto.
Qed.

Lemma excluded_chars c :
  char_in c BASE58_ALPHABET ->
  c <> "0"%char /\ c <> "O"%char /\ c <> "I"%char /\ c <> "l"%char.
Proof.
  unfold char_in. cbn. intros H.
  repeat (destruct H as [<-|H]; [repeat split; discriminate|]).
  destruct H.
Qed.

(** ** The encoder on valid inputs *)

(** C1. On every sequence of 64 bytes, [encode] returns one ['1'] per
    leading zero byte (the run of zeros that starts at index 0), followed by
    the base-58 digit string of the big-endian base-256 magnitude of the
    bytes: the digits obtained by dividing by 58 until 0 is reached, each
    remainder's symbol in front of the ones found before, and no digit at
    all for magnitude 0. *)
Theorem encode_is_ones_then_digits bytes :
  valid_input bytes ->
  encode bytes
  = Ok (Py.repeat_string "1" (leading_zeros bytes)
        ++ base58_digits (magnitude bytes)).
Proof. intros [_ H]. now apply encode_bytes. Qed.

(** C3. The 64 zero bytes encode to 64 times ['1'] and nothing else. *)
Theorem encode_all_zero :
  encode (repeat 0 64) = Ok (Py.repeat_string "1" 64).
Proof. vm_compute. reflexivity. Qed.

(** C4. 63 zero bytes followed by the byte 1 encode to 63 times ['1']
    followed by ['2']. *)
Theorem encode_zeros_then_one :
  encode (repeat 0 63 ++ [1])%list = Ok (Py.repeat_string "1" 63 ++ "2").
Proof. vm_compute. reflexivity. Qed.

(** C5. Among the 64-byte inputs whose first byte is not zero, none has a
    longer encoding than the input of 64 bytes 0xFF. *)
Theorem encode_all_ff_longest bytes :
  valid_input bytes -> hd 0 bytes <> 0 ->
  exists s smax,
    encode bytes = Ok s /\ encode (repeat 255 64) = Ok smax
    /\ (String.length s <= String.length smax)%nat.
Proof.
  intros [Hlen Hbytes] Hhd.
  exists (Py.repeat_string "1" (leading_zeros bytes)
          ++ base58_digits (magnitude bytes)),
         (base58_digits (2 ^ 512 - 1)).
  split; [now apply encode_bytes|]. split.
  - rewrite encode_bytes by (apply is_byte_check; reflexivity).
    f_equal.
  - destruct bytes as [|x r]; [discriminate|]. cbn [hd] in Hhd.
    rewrite leading_zeros_head by assumption. cbn [Py.repeat_string append].
    apply base58_digits_length_mono.
    pose proof (magnitude_range _ Hbytes) as Hm. rewrite Hlen in Hm.
    change (256 ^ Z.of_nat 64) with (2 ^ 512) in Hm. lia.
Qed.

(** C6. Every character of the encoding of a valid input is one of the 58
    symbols of the alphabet; the characters 0, O, I and l do not occur. *)
Theorem encode_alphabet_closed bytes :
  valid_input bytes ->
  exists s,
    encode bytes = Ok s
    /\ (forall c, char_in c s -> char_in c BASE58_ALPHABET)
    /\ ~ char_in "0" s /\ ~ char_in "O" s /\ ~ char_in "I" s /\ ~ char_in "l" s.
Proof.
  intros [_ Hbytes]. eexists. split; [now apply encode_bytes|].
  assert (Hin : forall c,
             char_in c (Py.repeat_string "1" (leading_zeros bytes)
                        ++ base58_digits (magnitude bytes)) ->
             char_in c BASE58_ALPHABET).
  { intros c Hc. apply char_in_app in Hc. destruct Hc as [Hc|Hc].
    - apply repeat_one_chars in Hc. subst c. unfold char_in. cbn. auto.
    - eapply base58_digits_alphabet; eassumption. }
  split; [exact Hin|].
  repeat split; intros Hc; apply Hin, excluded_chars in Hc; tauto.
Qed.

(** C9. [encode_base58] does not check the number of bytes: on two-digit
    hexadecimal texts, however many (none included), it returns one ['1'] per
    leading zero byte followed by the base-58 digits of the big-endian
    magnitude; it is [parse_input] that refuses a number of parts other than
    64. *)
Theorem encode_base58_any_length byte_list input_str :
  Forall two_digit_hex byte_list ->
  encode_base58 byte_list
  = Ok (Py.repeat_string "1" (leading_zeros (map hex_byte_value byte_list))
        ++ base58_digits (magnitude (map hex_byte_value byte_list)))
  /\ (List.length (split_input input_str) <> 64%nat ->
      parse_input input_str
      = ([MsgLengthError (List.length (split_input input_str))],
         Raise (SystemExit 1))).
Proof.
  intros H. split; [now apply encode_base58_hex|].
  intros Hlen. unfold parse_input.
  destruct (Nat.eqb_spec (List.length (split_input input_str)) 64);
    [contradiction | reflexivity].
Qed.

(** ** Decoding what was encoded *)

Lemma magnitude_snoc l x : magnitude (l ++ [x]) = magnitude l * 256 + x.
Proof.
  rewrite <- !from_bytes_big_magnitude. unfold Py.from_bytes_big.
  now rewrite fold_left_app.
Qed.

Lemma int_to_bytes_zero : int_to_bytes 0 = [].
Proof. now rewrite int_to_bytes_eq. Qed.

(** A byte sequence that does not begin with a zero byte is the shortest
    one of its magnitude. *)
Lemma int_to_bytes_magnitude l :
  Forall is_byte l -> hd 1 l <> 0 ->
  int_to_bytes (magnitude l) = l /\ (l <> [] -> 0 < magnitude l).
Proof.
  induction l as [|x l IH] using rev_ind; intros Hb Hhd.
  - split; [apply int_to_bytes_zero | congruence].
  - apply Forall_app in Hb. destruct Hb as [Hl Hx].
    apply Forall_inv in Hx. unfold is_byte in Hx.
    rewrite magnitude_snoc.
    assert (Hpos : 0 < magnitude l * 256 + x).
    { destruct l as [|y l].
      - cbn in Hhd |- *. lia.
      - destruct (IH Hl Hhd) as [_ Hm]. specialize (Hm ltac:(discriminate)). lia. }
    split; [|intros _; exact Hpos].
    rewrite int_to_bytes_eq. destruct (Z.ltb_spec 0 (magnitude l * 256 + x)); [|lia].
    replace ((magnitude l * 256 + x) / 256) with (magnitude l)
      by (apply Z.div_unique with x; lia).
    replace ((magnitude l * 256 + x) mod 256) with x
      by (apply Z.mod_unique with (magnitude l); lia).
    f_equal. destruct l as [|y l]; [apply int_to_bytes_zero|].
    now apply IH.
Qed.

(** A byte sequence is its run of leading zeros followed by the rest, and
    the run adds nothing to the magnitude. *)
Lemma leading_zeros_split l :
  l = (repeat 0 (leading_zeros l) ++ skipn (leading_zeros l) l)%list
  /\ magnitude l = magnitude (skipn (leading_zeros l) l)
  /\ hd 1 (skipn (leading_zeros l) l) <> 0.
Proof.
  induction l as [|x r (IH1 & IH2 & IH3)]; cbn [leading_zeros].
  - cbn. repeat split; lia.
  - destruct (Z.eqb_spec x 0) as [->|Hx].
    + cbn [repeat skipn app magnitude]. repeat split.
      * now rewrite <- IH1.
      * lia.
      * assumption.
    + cbn. repeat split. assumption.
Qed.

Lemma count_ones_cons c r :
  count_ones (String c r)
  = if Ascii.eqb c "1" then S (count_ones r) else O.
Proof.
  destruct c as [[] [] [] [] [] [] [] []]; reflexivity.
Qed.

Lemma count_ones_repeat n s :
  count_ones s = O ->
  count_ones (Py.repeat_string "1" n ++ s) = n.
Proof.
  intros Hs. induction n as [|n IH]; [exact Hs|].
  cbn [Py.repeat_string append]. rewrite count_ones_cons. cbn. now rewrite IH.
Qed.

Lemma count_ones_digits m : count_ones (base58_digits m) = O.
Proof.
  destruct (Z_lt_le_dec 0 m) as [Hm|Hm].
  - destruct (base58_digits_head m Hm) as (c & r & -> & Hc).
    rewrite count_ones_cons. destruct (Ascii.eqb_spec c "1"); [contradiction | reflexivity].
  - rewrite base58_digits_eq. destruct (Z.ltb_spec 0 m); [lia | reflexivity].
Qed.

Lemma base58_value_repeat n s :
  base58_value (Py.repeat_string "1" n ++ s) 0 = base58_value s 0.
Proof.
  induction n as [|n IH]; [reflexivity|].
  cbn [Py.repeat_string append base58_value].
  change (base58_index "1") with (Some 0). exact IH.
Qed.

Lemma decode_encoding l :
  Forall is_byte l ->
  decode (Py.repeat_string "1" (leading_zeros l)
          ++ base58_digits (magnitude l)) = Some l.
Proof.
  intros Hb. unfold decode.
  pose proof (magnitude_range l Hb) as Hm.
  rewrite base58_value_repeat, base58_value_digits by lia.
  rewrite count_ones_repeat by apply count_ones_digits.
  destruct (leading_zeros_split l) as (E & Emag & Hhd).
  assert (Hr : Forall is_byte (skipn (leading_zeros l) l)).
  { rewrite <- (firstn_skipn (leading_zeros l) l) in Hb.
    apply Forall_app in Hb. tauto. }
  rewrite Emag, (proj1 (int_to_bytes_magnitude _ Hr Hhd)).
  f_equal. symmetry. exact E.
Qed.

(** C2. There is a decoder: [decode] recovers every valid input from its
    encoding, leading zero bytes included, so that [encode] is injective on
    the sequences of 64 bytes. *)
Theorem decode_encode_roundtrip bytes :
  valid_input bytes ->
  (exists s, encode bytes = Ok s /\ decode s = Some bytes)
  /\ (forall other,
       valid_input other -> encode other = encode bytes -> other = bytes).
Proof.
  intros [_ Hb]. split.
  - eexists. split; [now apply encode_bytes | now apply decode_encoding].
  - intros other [_ Ho] E.
    rewrite (encode_bytes other Ho), (encode_bytes bytes Hb) in E.
    injection E as E.
    pose proof (decode_encoding other Ho) as Hd. rewrite E in Hd.
    rewrite (decode_encoding bytes Hb) in Hd. congruence.
Qed.

(** ** Input validation: the number of parts *)

(** Splitting gives one part more than there are separators. *)
Lemma split_length sep s :
  List.length (Py.split sep s) = S (count_char sep s).
Proof.
  induction s as [|c s IH]; cbn [Py.split count_char]; [reflexivity|].
  destruct (Ascii.eqb c sep); [cbn; now rewrite IH|].
  destruct (Py.split sep s); [discriminate IH | exact IH].
Qed.

Lemma count_lstrip c s :
  Py.isspace c = false -> count_char c (Py.lstrip s) = count_char c s.
Proof.
  intros Hc. induction s as [|d s IH]; cbn [Py.lstrip]; [reflexivity|].
  destruct (Py.isspace d) eqn:Hd; [|reflexivity].
  cbn [count_char]. destruct (Ascii.eqb_spec d c); [congruence | exact IH].
Qed.

Lemma count_rstrip c s :
  Py.isspace c = false -> count_char c (Py.rstrip s) = count_char c s.
Proof.
  intros Hc. induction s as [|d s IH]; cbn [Py.rstrip]; [reflexivity|].
  destruct (Py.rstrip s) as [|e r].
  - cbn [count_char] in IH |- *. rewrite <- IH.
    destruct (Py.isspace d) eqn:Hd; [|reflexivity].
    destruct (Ascii.eqb_spec d c); [congruence | reflexivity].
  - cbn [count_char] in IH |- *. now rewrite IH.
Qed.

Lemma count_strip c s :
  Py.isspace c = false -> count_char c (Py.strip s) = count_char c s.
Proof.
  intros Hc. unfold Py.strip. now rewrite count_rstrip, count_lstrip.
Qed.

Lemma rev_string_empty s : Py.rev_string s = "" -> s = "".
Proof.
  destruct s as [|c s]; [reflexivity|]. cbn.
  destruct (Py.rev_string s); discriminate.
Qed.

(** Whether a text ends with a given character is decided by its last
    character. *)
Lemma endswith_cons c s p :
  Py.endswith (String c s) (String p "")
  = match s with
    | EmptyString => Ascii.eqb c p
    | _ => Py.endswith s (String p "")
    end.
Proof.
  unfold Py.endswith. cbn [Py.rev_string append].
  destruct s as [|d s].
  - cbn. destruct (ascii_dec p c) as [->|Hn].
    + now rewrite Ascii.eqb_refl.
    + destruct (Ascii.eqb_spec c p); congruence.
  - destruct (Py.rev_string (String d s)) as [|e r] eqn:E.
    + apply rev_string_empty in E. discriminate.
    + cbn. destruct (ascii_dec p e); [|reflexivity].
      destruct r; reflexivity.
Qed.

Lemma count_drop_last c p s :
  Py.endswith s (String p "") = true -> p <> c ->
  count_char c (Py.drop_last s) = count_char c s.
Proof.
  intros H Hp. induction s as [|d s IH]; [reflexivity|].
  rewrite endswith_cons in H. destruct s as [|e s].
  - apply Ascii.eqb_eq in H. subst d. cbn.
    destruct (Ascii.eqb_spec p c); congruence.
  - change (Py.drop_last (String d (String e s)))
      with (String d (Py.drop_last (String e s))).
    cbn [count_char] in IH |- *. now rewrite (IH H).
Qed.

(** The parts are as many as a plain split at the commas gives: stripping
    and the removal of the brackets take no comma away. *)
Lemma split_input_length input_str :
  List.length (split_input input_str)
  = List.length (Py.split "," input_str).
Proof.
  unfold split_input. rewrite !split_length. f_equal.
  rewrite <- (count_strip "," input_str) by reflexivity.
  destruct (Py.strip input_str) as [|d s]; [reflexivity|].
  destruct (Py.startswith (String d s) "[") eqn:Hs; [|reflexivity].
  destruct (Py.endswith (String d s) "]") eqn:He; [|reflexivity].
  cbn [andb]. unfold Py.slice_1_m1. cbn [Py.drop].
  assert (Hd : d = "["%char).
  { unfold Py.startswith in Hs. cbn [String.prefix] in Hs.
    destruct (ascii_dec "[" d); [congruence | discriminate]. }
  subst d. rewrite endswith_cons in He.
  destruct s as [|e s]; [vm_compute in He; discriminate|].
  rewrite (count_drop_last "," "]" _ He) by discriminate. reflexivity.
Qed.

Lemma parse_input_wrong_length input_str :
  List.length (split_input input_str) <> 64%nat ->
  parse_input input_str
  = ([MsgLengthError (List.length (split_input input_str))],
     Raise (SystemExit 1)).
Proof.
  intros Hlen. unfold parse_input.
  destruct (Nat.eqb_spec (List.length (split_input input_str)) 64);
    [contradiction | reflexivity].
Qed.

Lemma parse_input_right_length input_str :
  List.length (split_input input_str) = 64%nat ->
  parse_input input_str = parse_parts (split_input input_str) [].
Proof.
  intros Hlen. unfold parse_input. rewrite Hlen. reflexivity.
Qed.

Lemma main_parse_error input_str out e :
  parse_input input_str = (out, Raise e) ->
  main input_str = (MsgPrompt :: out, Raise e).
Proof. intros H. unfold main. cbn. rewrite H. reflexivity. Qed.

(** C7. When splitting the text at its commas does not give exactly 64
    parts, [parse_input] reports the wrong length and ends the program at
    once: nothing else is printed, no part is looked at, and [main] never
    reaches the encoder. The parts counted are those of [parse_input], as
    many as the commas of the text give. *)
Theorem wrong_length_rejected input_str :
  List.length (Py.split "," input_str) <> 64%nat ->
  List.length (split_input input_str) = List.length (Py.split "," input_str)
  /\ parse_input input_str
     = ([MsgLengthError (List.length (split_input input_str))],
        Raise (SystemExit 1))
  /\ main input_str
     = ([MsgPrompt; MsgLengthError (List.length (split_input input_str))],
        Raise (SystemExit 1)).
Proof.
  intros Hlen. pose proof (split_input_length input_str) as E.
  rewrite <- E in Hlen.
  pose proof (parse_input_wrong_length _ Hlen) as H.
  split; [exact E|]. split; [exact H | now apply main_parse_error].
Qed.

(** ** Input validation: the value of a token *)

Lemma int_raises s base e :
  Py.int s base = Raise e -> e = ValueError (InvalidLiteral base s).
Proof.
  unfold Py.int. destruct (Py.long_from_string _ _); congruence.
Qed.

Lemma parse_token_raises token e :
  parse_token token = Raise e -> exists ve, e = ValueError ve.
Proof.
  unfold parse_token, token_value.
  destruct (Py.any _ _);
    (destruct (Py.int token _) as [v|e'] eqn:E; cbn [rbind];
     [ destruct (negb _); [intros [= <-]; eauto | discriminate]
     | intros [= <-]; apply int_raises in E; eauto ]).
Qed.






(** ** Tokens with a prefix and decimal digits only *)

















(** ** The theorems at sample inputs *)

Lemma encode_is_ones_then_digits_sample :
  valid_input sample_bytes
  /\ encode sample_bytes
     = Ok (Py.repeat_string "1" (leading_zeros sample_bytes)
           ++ base58_digits (magnitude sample_bytes)).
Proof.
  assert (H : valid_input sample_bytes)
    by (apply valid_input_check; reflexivity).
  split; [exact H | exact (encode_is_ones_then_digits sample_bytes H)].
Defined.

Lemma decode_encode_roundtrip_sample :
  valid_input sample_bytes
  /\ (exists s, encode sample_bytes = Ok s /\ decode s = Some sample_bytes)
  /\ (forall other,
       valid_input other -> encode other = encode sample_bytes ->
       other = sample_bytes).
Proof.
  assert (H : valid_input sample_bytes)
    by (apply valid_input_check; reflexivity).
  split; [exact H | exact (decode_encode_roundtrip sample_bytes H)].
Defined.

Lemma encode_all_ff_longest_sample :
  valid_input sample_bytes_nonzero_head
  /\ hd 0 sample_bytes_nonzero_head <> 0
  /\ exists s smax,
      encode sample_bytes_nonzero_head = Ok s
      /\ encode (repeat 255 64) = Ok smax
      /\ (String.length s <= String.length smax)%nat.
Proof.
  assert (H : valid_input sample_bytes_nonzero_head)
    by (apply valid_input_check; reflexivity).
  assert (Hhd : hd 0 sample_bytes_nonzero_head <> 0) by (cbn; lia).
  split; [exact H|]. split; [exact Hhd|].
  exact (encode_all_ff_longest sample_bytes_nonzero_head H Hhd).
Defined.

Lemma encode_alphabet_closed_sample :
  valid_input sample_bytes
  /\ exists s,
      encode sample_bytes = Ok s
      /\ (forall c, char_in c s -> char_in c BASE58_ALPHABET)
      /\ ~ char_in "0" s /\ ~ char_in "O" s
      /\ ~ char_in "I" s /\ ~ char_in "l" s.
Proof.
  assert (H : valid_input sample_bytes)
    by (apply valid_input_check; reflexivity).
  split; [exact H | exact (encode_alphabet_closed sample_bytes H)].
Defined.

Lemma wrong_length_rejected_sample :
  List.length (Py.split "," "[00, 1a, ff]") <> 64%nat
  /\ List.length (split_input "[00, 1a, ff]") = 3%nat
  /\ parse_input "[00, 1a, ff]"
     = ([MsgLengthError 3], Raise (SystemExit 1))
  /\ main "[00, 1a, ff]"
     = ([MsgPrompt; MsgLengthError 3], Raise (SystemExit 1)).
Proof.
  assert (H : List.length (Py.split "," "[00, 1a, ff]") <> 64%nat)
    by (vm_compute; lia).
  split; [exact H | exact (wrong_length_rejected "[00, 1a, ff]" H)].
Defined.


Lemma encode_base58_any_length_sample :
  Forall two_digit_hex ["00"; "fF"]
  /\ encode_base58 ["00"; "fF"] = Ok "15Q"
  /\ parse_input "00,fF" = ([MsgLengthError 2], Raise (SystemExit 1)).
Proof.
  assert (H : Forall two_digit_hex ["00"; "fF"]).
  { repeat constructor.
    - exists "0"%char, "0"%char. repeat split.
    - exists "f"%char, "F"%char. repeat split. }
  destruct (encode_base58_any_length ["00"; "fF"] "00,fF" H) as [He Hp].
  split; [exact H|]. split; [exact He|].
  apply Hp. vm_compute. lia.
Defined.


(** ** The model on known cases *)

(** The tokens [0x1a], [1A] and [26] all give the byte 0x1a. *)
Example tokens_of_one_byte :
  parse_token (token_of "0x1a") = Ok "1a"
  /\ parse_token (token_of " 1A ") = Ok "1a"
  /\ parse_token (token_of "26") = Ok "1a".
Proof. repeat split. Qed.

(** 64 bytes 0xFF: 88 characters, none of them padding. *)
Example encode_all_ff :
  encode (repeat 255 64)
  = Ok "67rpwLCuS5DGA8KGZXKsVQ7dnPb9goRLoKfgGbLfQg9WoLUgNY77E2jT11fem3coV9nAkguBACzrU1iyZM4B8roQ".
Proof. vm_compute. reflexivity. Qed.

(** A whole run on a well-formed text. *)
Example main_on_zeros :
  main ("[" ++ Py.repeat_string "0x00, " 63 ++ "1]")
  = ([MsgPrompt; MsgHeader; MsgEncoded (Py.repeat_string "1" 63 ++ "2")],
     Ok tt).
Proof. vm_compute. reflexivity. Qed.

(** [int] on the edges of its grammar. *)
Example int_cases :
  Py.int " 10 " 10 = Ok 10 /\ Py.int "0x_1f" 16 = Ok 31
  /\ Py.int "-a" 16 = Ok (-10) /\ Py.int "010" 10 = Ok 10
  /\ Py.int "1_0" 10 = Ok 10 /\ Py.int "+10" 10 = Ok 10
  /\ Py.int "0x10" 10 = Raise (ValueError (InvalidLiteral 10 "0x10"))
  /\ Py.int "1__0" 10 = Raise (ValueError (InvalidLiteral 10 "1__0"))
  /\ Py.int "0x" 16 = Raise (ValueError (InvalidLiteral 16 "0x"))
  /\ Py.int "" 10 = Raise (ValueError (InvalidLiteral 10 ""))
  /\ Py.int "- 5" 10 = Raise (ValueError (InvalidLiteral 10 "- 5")).
Proof. repeat split. Qed.

(** Stripping, slicing and splitting. *)
Example text_cases :
  Py.strip "  a b " = "a b" /\ Py.slice_1_m1 "[x]" = "x"
  /\ Py.split "," "" = [""] /\ Py.split "," "a,,b," = ["a"; ""; "b"; ""]
  /\ Py.endswith "ab]" "]" = true /\ Py.endswith "" "]" = false
  /\ Py.lower "0XaF" = "0xaf"
  /\ Py.format_02x 0 = "00" /\ Py.format_02x 255 = "ff".
Proof. repeat split. Qed.

(** * Further properties of the script *)

(** ** [encode_base58] on any list of texts *)

Lemma comprehension_inv {A B} (f : A -> result B) x l ys :
  Py.comprehension f (x :: l) = Ok ys ->
  exists y ys', f x = Ok y /\ Py.comprehension f l = Ok ys' /\ ys = y :: ys'.
Proof.
  cbn [Py.comprehension]. destruct (f x) as [y|e]; cbn [rbind]; [|discriminate].
  destruct (Py.comprehension f l) as [ys'|e]; cbn [rbind]; [|discriminate].
  intros [= <-]. eauto.
Qed.

Lemma count_loop_values l :
  forall vs n,
    Py.comprehension (fun x => Py.int x 16) l = Ok vs ->
    count_loop l n = Ok (n + Z.of_nat (leading_zeros vs)).
Proof.
  induction l as [|x l IH]; intros vs n H.
  - cbn in H. injection H as <-. cbn. f_equal. lia.
  - apply comprehension_inv in H. destruct H as (v & ws & Hv & Hws & ->).
    cbn [count_loop leading_zeros]. rewrite Hv. cbn [rbind].
    destruct (v =? 0).
    + rewrite (IH ws) by assumption. f_equal. lia.
    + f_equal. cbn. lia.
Qed.

Lemma is_byte_dec v : {is_byte v} + {~ is_byte v}.
Proof.
  unfold is_byte. destruct (Z_le_dec 0 v), (Z_le_dec v 255);
    (left; lia) || (right; lia).
Qed.

Lemma bytearray_not_bytes l :
  ~ Forall is_byte l -> Py.bytearray l = Raise (ValueError ByteMustBeInRange).
Proof.
  induction l as [|x r IH]; intros H; [destruct H; constructor|].
  cbn [Py.bytearray]. destruct (is_byte_dec x) as [Hx|Hx].
  - unfold is_byte in Hx.
    destruct (Z.leb_spec 0 x), (Z.ltb_spec x 256); try lia. cbn [andb].
    rewrite IH; [reflexivity|]. intros Hr. apply H. now constructor.
  - unfold is_byte in Hx.
    destruct (Z.leb_spec 0 x), (Z.ltb_spec x 256); try lia; reflexivity.
Qed.

Lemma encode_base58_of_values byte_list vs :
  Py.comprehension (fun x => Py.int x 16) byte_list = Ok vs ->
  Forall is_byte vs ->
  encode_base58 byte_list
  = Ok (Py.repeat_string "1" (leading_zeros vs)
        ++ base58_digits (magnitude vs)).
Proof.
  intros Hvs Hb. unfold encode_base58, bytes_to_int.
  rewrite Hvs. cbn [rbind]. rewrite (bytearray_bytes vs Hb). cbn [rbind].
  rewrite from_bytes_big_magnitude, encode_loop_digits. cbn [rbind].
  rewrite (count_loop_values _ _ _ Hvs). cbn [rbind].
  change (Py.index BASE58_ALPHABET 0) with (@Ok ascii "1"%char). cbn [rbind].
  rewrite Z.add_0_l, mul_one, string_app_nil_r. reflexivity.
Qed.

Lemma encode_base58_not_bytes byte_list vs :
  Py.comprehension (fun x => Py.int x 16) byte_list = Ok vs ->
  ~ Forall is_byte vs ->
  encode_base58 byte_list = Raise (ValueError ByteMustBeInRange).
Proof.
  intros Hvs Hb. unfold encode_base58, bytes_to_int.
  rewrite Hvs. cbn [rbind]. rewrite (bytearray_not_bytes vs Hb). reflexivity.
Qed.

(** X1. Whatever the texts look like (two digits or not, with blanks, a sign
    or a prefix), when [int(x, 16)] reads each of them as a byte,
    [encode_base58] returns the padding and the digits of these bytes. *)
Theorem encode_base58_values byte_list vs :
  Py.comprehension (fun x => Py.int x 16) byte_list = Ok vs ->
  Forall is_byte vs ->
  encode_base58 byte_list
  = Ok (Py.repeat_string "1" (leading_zeros vs)
        ++ base58_digits (magnitude vs)).
Proof. apply encode_base58_of_values. Qed.

(** X2. When every text is read as an integer but one of the integers is
    not in 0..255, [encode_base58] raises the [ValueError] of [bytearray]
    and returns nothing. *)
Theorem encode_base58_range_error byte_list vs :
  Py.comprehension (fun x => Py.int x 16) byte_list = Ok vs ->
  ~ Forall is_byte vs ->
  encode_base58 byte_list = Raise (ValueError ByteMustBeInRange).
Proof. apply encode_base58_not_bytes. Qed.

Lemma comprehension_first_error {A B} (f : A -> result B) pre x post ys e :
  Py.comprehension f pre = Ok ys -> f x = Raise e ->
  Py.comprehension f (pre ++ x :: post) = Raise e.
Proof.
  revert ys. induction pre as [|p pre IH]; intros ys Hpre Hx.
  - cbn. rewrite Hx. reflexivity.
  - apply comprehension_inv in Hpre. destruct Hpre as (y & ys' & Hp & Hpre & _).
    cbn [app Py.comprehension]. rewrite Hp. cbn [rbind].
    rewrite (IH ys' Hpre Hx). reflexivity.
Qed.

(** X3. When a text is not a number for [int(x, 16)] and those before it
    are, [encode_base58] raises the [ValueError] of that text, whatever
    follows it. *)
Theorem encode_base58_literal_error pre x post vs e :
  Py.comprehension (fun x => Py.int x 16) pre = Ok vs ->
  Py.int x 16 = Raise e ->
  encode_base58 (pre ++ x :: post)
  = Raise (ValueError (InvalidLiteral 16 x)).
Proof.
  intros Hpre Hx. pose proof (int_raises _ _ _ Hx) as ->.
  unfold encode_base58, bytes_to_int.
  rewrite (comprehension_first_error _ pre x post vs _ Hpre Hx). reflexivity.
Qed.

Lemma comprehension_outcome (l : list string) :
  (exists vs, Py.comprehension (fun x => Py.int x 16) l = Ok vs)
  \/ (exists x, In x l /\ Py.comprehension (fun x => Py.int x 16) l
                         = Raise (ValueError (InvalidLiteral 16 x))).
Proof.
  induction l as [|x l IH]; [left; exists []; reflexivity|].
  cbn [Py.comprehension]. destruct (Py.int x 16) as [v|e] eqn:E.
  - cbn [rbind]. destruct IH as [[vs ->] | (y & Hy & ->)].
    + left. eexists. reflexivity.
    + right. exists y. split; [now right | reflexivity].
  - right. exists x. split; [now left|].
    now rewrite (int_raises _ _ _ E).
Qed.

Lemma encode_base58_cases byte_list :
  (exists vs,
      Py.comprehension (fun x => Py.int x 16) byte_list = Ok vs
      /\ Forall is_byte vs
      /\ encode_base58 byte_list
         = Ok (Py.repeat_string "1" (leading_zeros vs)
               ++ base58_digits (magnitude vs)))
  \/ (exists ve, encode_base58 byte_list = Raise (ValueError ve)).
Proof.
  destruct (comprehension_outcome byte_list) as [[vs Hvs] | (x & _ & Hx)].
  - destruct (Forall_dec is_byte is_byte_dec vs) as [Hb|Hb].
    + left. exists vs. repeat split; try assumption.
      now apply encode_base58_of_values.
    + right. eexists. now apply (encode_base58_not_bytes _ vs).
  - right. eexists. unfold encode_base58, bytes_to_int. rewrite Hx. reflexivity.
Qed.


Lemma encode_base58_ok_inv byte_list s :
  encode_base58 byte_list = Ok s ->
  exists vs,
    Py.comprehension (fun x => Py.int x 16) byte_list = Ok vs
    /\ Forall is_byte vs
    /\ s = Py.repeat_string "1" (leading_zeros vs)
           ++ base58_digits (magnitude vs).
Proof.
  intros H. destruct (encode_base58_cases byte_list)
    as [(vs & Hvs & Hb & E) | (ve & E)]; rewrite E in H; [|discriminate].
  injection H as <-. eauto.
Qed.

(** X5. The round trip for any number of bytes: whenever [encode_base58]
    returns a text, [decode] gives back the bytes its elements were read as,
    leading zeros included; so two lists with the same encoding stand for the
    same bytes, even when they differ in length. *)
Theorem decode_encode_base58 byte_list s :
  encode_base58 byte_list = Ok s ->
  exists vs,
    Py.comprehension (fun x => Py.int x 16) byte_list = Ok vs
    /\ decode s = Some vs
    /\ forall other ws,
        encode_base58 other = Ok s ->
        Py.comprehension (fun x => Py.int x 16) other = Ok ws -> ws = vs.
Proof.
  intros H. destruct (encode_base58_ok_inv _ _ H) as (vs & Hvs & Hb & ->).
  exists vs. split; [exact Hvs|].
  pose proof (decode_encoding vs Hb) as Hd. split; [exact Hd|].
  intros other ws Ho Hws.
  destruct (encode_base58_ok_inv _ _ Ho) as (ws' & Hws' & Hb' & E).
  rewrite Hws in Hws'. injection Hws' as <-.
  pose proof (decode_encoding ws Hb') as Hd'. rewrite <- E in Hd'. congruence.
Qed.

(** X6. The text [encode_base58] returns begins with exactly as many ['1']
    as there are leading zero bytes: the character after them, if any, is
    another symbol. *)
Theorem encode_base58_leading_ones byte_list s vs :
  encode_base58 byte_list = Ok s ->
  Py.comprehension (fun x => Py.int x 16) byte_list = Ok vs ->
  count_ones s = leading_zeros vs.
Proof.
  intros H Hvs. destruct (encode_base58_ok_inv _ _ H) as (vs' & Hvs' & _ & ->).
  rewrite Hvs in Hvs'. injection Hvs' as <-.
  apply count_ones_repeat, count_ones_digits.
Qed.

(** X7. A zero byte in front adds one ['1'] in front: the magnitude ignores
    it, the count of leading zeros does not. *)
Theorem encode_base58_zero_in_front zero_byte byte_list s :
  Py.int zero_byte 16 = Ok 0 ->
  encode_base58 byte_list = Ok s ->
  encode_base58 (zero_byte :: byte_list) = Ok (String "1" s).
Proof.
  intros Hz H. destruct (encode_base58_ok_inv _ _ H) as (vs & Hvs & Hb & ->).
  rewrite (encode_base58_of_values (zero_byte :: byte_list) (0 :: vs)).
  - cbn [leading_zeros magnitude Z.eqb Py.repeat_string append].
    rewrite Z.mul_0_l, Z.add_0_l. reflexivity.
  - cbn [Py.comprehension]. rewrite Hz. cbn [rbind]. rewrite Hvs. reflexivity.
  - constructor; [unfold is_byte; lia | assumption].
Qed.

(** ** The length of the encoding *)

(** The digit string of a positive number has the length of its base-58
    numeral. *)
Lemma base58_digits_length m :
  0 < m ->
  58 ^ (Z.of_nat (String.length (base58_digits m)) - 1) <= m
  /\ m < 58 ^ Z.of_nat (String.length (base58_digits m)).
Proof.
  induction m as [m IH] using pos_induction. intros Hm.
  rewrite base58_digits_eq. destruct (Z.ltb_spec 0 m); [|lia].
  rewrite string_length_app. cbn [String.length].
  rewrite Nat2Z.inj_add. change (Z.of_nat 1) with 1.
  replace (Z.of_nat (String.length (base58_digits (m / 58))) + 1 - 1)
    with (Z.of_nat (String.length (base58_digits (m / 58)))) by lia.
  pose proof (Z.div_mod m 58 ltac:(lia)) as Hdm.
  pose proof (mod58_range m) as Hr.
  destruct (Z.eq_dec (m / 58) 0) as [E|NE].
  - rewrite E, base58_digits_eq. cbn. lia.
  - assert (Hq : 0 < m / 58) by (pose proof (div_range m 58); lia).
    destruct (IH (m / 58)) as [Hlo Hhi]; [apply div_range; lia | exact Hq |].
    set (L := Z.of_nat (String.length (base58_digits (m / 58)))) in *.
    assert (HL : 1 <= L).
    { destruct (Z_lt_le_dec L 1) as [HL|HL]; [|exact HL].
      replace L with 0 in Hhi by lia. cbn in Hhi. lia. }
    rewrite Z.pow_add_r by lia. change (58 ^ 1) with 58.
    replace (58 ^ L) with (58 * 58 ^ (L - 1)) in *
      by (rewrite <- Z.pow_succ_r by lia; f_equal; lia).
    lia.
Qed.

Lemma magnitude_head x r :
  Forall is_byte (x :: r) -> x <> 0 ->
  256 ^ Z.of_nat (List.length r) <= magnitude (x :: r).
Proof.
  intros Hb Hx. pose proof (Forall_inv Hb) as Hx'. apply Forall_inv_tail in Hb.
  pose proof (magnitude_range r Hb). unfold is_byte in Hx'.
  cbn [magnitude]. nia.
Qed.

Lemma pow256_bound n :
  0 <= n <= 64 -> 256 ^ n <= 58 ^ (n + 24).
Proof.
  intros Hn.
  pose (P := fun n => 256 ^ n <=? 58 ^ (n + 24)).
  assert (HP : P n = true)
    by (apply (range_check P 65); [vm_compute; reflexivity | lia]).
  unfold P in HP. lia.
Qed.

Lemma repeat_one_length n : String.length (Py.repeat_string "1" n) = n.
Proof. induction n as [|n IH]; cbn; [reflexivity | now rewrite IH]. Qed.

(** X8. The encoding of 64 bytes has at least 64 and at most 88
    characters. *)
Theorem encode_length_bounds bytes :
  valid_input bytes ->
  exists s, encode bytes = Ok s
            /\ (64 <= String.length s <= 88)%nat.
Proof.
  intros [Hlen Hb]. eexists. split; [now apply encode_bytes|].
  destruct (leading_zeros_split bytes) as (E & Emag & Hhd).
  rewrite string_length_app, Emag.
  rewrite repeat_one_length.
  assert (Hr : Forall is_byte (skipn (leading_zeros bytes) bytes)).
  { rewrite <- (firstn_skipn (leading_zeros bytes) bytes) in Hb.
    apply Forall_app in Hb. tauto. }
  assert (Hn : (leading_zeros bytes
                + List.length (skipn (leading_zeros bytes) bytes) = 64)%nat).
  { pose proof (f_equal (@List.length Z) E) as El.
    rewrite length_app, repeat_length in El. lia. }
  destruct (skipn (leading_zeros bytes) bytes) as [|x r] eqn:Er.
  - cbn in Hn |- *. rewrite base58_digits_eq. cbn. lia.
  - cbn [hd] in Hhd. cbn [List.length] in Hn.
    pose proof (magnitude_head x r Hr Hhd) as Hlo.
    pose proof (magnitude_range _ Hr) as Hhi. cbn [List.length] in Hhi.
    assert (Hpos : 0 < magnitude (x :: r))
      by (pose proof (Z.pow_pos_nonneg 256 (Z.of_nat (List.length r))); lia).
    destruct (base58_digits_length _ Hpos) as [Hdlo Hdhi].
    set (L := String.length (base58_digits (magnitude (x :: r)))) in *.
    set (n := List.length r) in *.
    assert (HLlo : (S n <= L)%nat).
    { destruct (Nat.le_gt_cases (S n) L) as [|Hlt]; [assumption|]. exfalso.
      assert (58 ^ Z.of_nat L <= 58 ^ Z.of_nat n)
        by (apply Z.pow_le_mono_r; lia).
      assert (58 ^ Z.of_nat n <= 256 ^ Z.of_nat n)
        by (apply Z.pow_le_mono_l; lia).
      lia. }
    assert (HLhi : (L <= S n + 24)%nat).
    { destruct (Nat.le_gt_cases L (S n + 24)) as [|Hlt]; [assumption|]. exfalso.
      assert (58 ^ (Z.of_nat (S n) + 24) <= 58 ^ (Z.of_nat L - 1))
        by (apply Z.pow_le_mono_r; lia).
      pose proof (pow256_bound (Z.of_nat (S n)) ltac:(lia)).
      lia. }
    lia.
Qed.

(** ** What [parse_input] returns *)

Lemma part_ok_token part :
  part_ok part = true ->
  is_byte (part_value part)
  /\ parse_token (token_of part) = Ok (Py.format_02x (part_value part)).
Proof.
  unfold part_ok, part_value, parse_token.
  destruct (token_value (token_of part)) as [v|e]; [|discriminate].
  intros H. cbn [rbind]. rewrite H. cbn [negb].
  split; [unfold is_byte; lia | reflexivity].
Qed.

Lemma part_not_ok_token part :
  part_ok part = false ->
  exists ve, parse_token (token_of part) = Raise (ValueError ve).
Proof.
  unfold part_ok, parse_token. intros H.
  destruct (token_value (token_of part)) as [v|e] eqn:E.
  - cbn [rbind]. rewrite H. cbn [negb]. eauto.
  - assert (Hr : parse_token (token_of part) = Raise e)
      by (unfold parse_token; rewrite E; reflexivity).
    destruct (parse_token_raises _ _ Hr) as [ve ->]. cbn [rbind]. eauto.
Qed.

Lemma parse_parts_ok parts :
  forall byte_list,
    forallb part_ok parts = true ->
    parse_parts parts byte_list
    = ([], Ok (byte_list
               ++ map (fun p => Py.format_02x (part_value p)) parts)%list).
Proof.
  induction parts as [|p parts IH]; intros byte_list H.
  - cbn. now rewrite app_nil_r.
  - cbn [forallb] in H. apply andb_prop in H. destruct H as [Hp Hr].
    cbn [parse_parts map]. rewrite (proj2 (part_ok_token p Hp)).
    rewrite (IH _ Hr), <- app_assoc. reflexivity.
Qed.

Lemma parse_parts_outcome parts :
  forall byte_list,
    forallb part_ok parts = true
    \/ exists tok ve,
        parse_parts parts byte_list
        = ([MsgByteError tok ve], Raise (SystemExit 1)).
Proof.
  induction parts as [|p parts IH]; intros byte_list; [left; reflexivity|].
  cbn [forallb parse_parts]. destruct (part_ok p) eqn:Hp.
  - rewrite (proj2 (part_ok_token p Hp)).
    destruct (IH (byte_list ++ [Py.format_02x (part_value p)])%list)
      as [Hr | Herr]; [left; exact Hr | right; exact Herr].
  - right. destruct (part_not_ok_token p Hp) as [ve ->]. cbn. eauto.
Qed.

Lemma format_02x_lower v :
  is_byte v -> Py.lower (Py.format_02x v) = Py.format_02x v.
Proof.
  intros Hv.
  pose (P := fun v => String.eqb (Py.lower (Py.format_02x v)) (Py.format_02x v)).
  assert (HP : P v = true)
    by (apply (range_check P 256); [vm_compute; reflexivity | unfold is_byte in Hv; lia]).
  now apply String.eqb_eq in HP.
Qed.

Lemma parse_input_ok_inv input_str out byte_list :
  parse_input input_str = (out, Ok byte_list) ->
  out = []
  /\ List.length byte_list = 64%nat
  /\ byte_list
     = map (fun p => Py.format_02x (part_value p)) (split_input input_str)
  /\ Forall (fun h => two_digit_hex h /\ Py.lower h = h) byte_list
  /\ map hex_byte_value byte_list = map part_value (split_input input_str).
Proof.
  unfold parse_input. intros H.
  destruct (Nat.eqb_spec (List.length (split_input input_str)) 64)
    as [Hlen|Hlen]; [|discriminate].
  cbn [negb] in H.
  destruct (parse_parts_outcome (split_input input_str) [])
    as [Hok | (tok & ve & Herr)]; [|rewrite Herr in H; discriminate].
  rewrite (parse_parts_ok _ _ Hok) in H. cbn [app] in H.
  injection H as <- <-.
  split; [reflexivity|]. split; [now rewrite length_map|].
  split; [reflexivity|].
  rewrite forallb_forall in Hok. split.
  - apply Forall_forall. intros h Hh. apply in_map_iff in Hh.
    destruct Hh as (p & <- & Hp).
    destruct (part_ok_token p (Hok p Hp)) as [Hb _].
    split; [apply format_02x_byte, Hb | apply format_02x_lower, Hb].
  - rewrite map_map. apply map_ext_in. intros p Hp.
    destruct (part_ok_token p (Hok p Hp)) as [Hb _].
    apply format_02x_byte, Hb.
Qed.

(** X9. When [parse_input] returns, it has printed nothing and returns 64
    texts, one per part and in their order, each the two lower-case
    hexadecimal digits of the byte its part stands for. *)
Theorem parse_input_returns_64_hex input_str out byte_list :
  parse_input input_str = (out, Ok byte_list) ->
  out = []
  /\ List.length byte_list = 64%nat
  /\ byte_list
     = map (fun p => Py.format_02x (part_value p)) (split_input input_str)
  /\ Forall (fun h => two_digit_hex h /\ Py.lower h = h) byte_list
  /\ map hex_byte_value byte_list = map part_value (split_input input_str).
Proof. apply parse_input_ok_inv. Qed.

(** ** What a run of [main] can be *)


(** X11. From the text to the output: when the text has 64 parts and each
    is read as a byte, [main] prints the prompt, the header and then one
    ['1'] per leading zero byte followed by the base-58 digits of the
    big-endian magnitude of these 64 bytes. *)
Theorem main_prints_encoding user_input :
  List.length (split_input user_input) = 64%nat ->
  forallb part_ok (split_input user_input) = true ->
  main user_input
  = ([MsgPrompt; MsgHeader;
      MsgEncoded
        (Py.repeat_string "1"
           (leading_zeros (map part_value (split_input user_input)))
         ++ base58_digits
              (magnitude (map part_value (split_input user_input))))],
     Ok tt).
Proof.
  intros Hlen Hok.
  pose proof (parse_input_right_length _ Hlen) as Hp.
  rewrite (parse_parts_ok _ _ Hok) in Hp. cbn [app] in Hp.
  destruct (parse_input_ok_inv _ _ _ Hp) as (_ & _ & _ & Hhex & Hval).
  assert (Hh : Forall two_digit_hex
                 (map (fun p => Py.format_02x (part_value p))
                    (split_input user_input)))
    by (eapply Forall_impl; [|exact Hhex]; cbn; tauto).
  pose proof (encode_base58_hex _ Hh) as He. rewrite Hval in He.
  unfold main. cbn [print pbind]. rewrite Hp. cbn [pbind lift].
  rewrite He. reflexivity.
Qed.

(** ** The first part that is refused *)



(** ** Tokens *)

Lemma lstrip_blank s :
  Py.any (fun c => negb (Py.isspace c)) s = false -> Py.lstrip s = "".
Proof.
  induction s as [|c s IH]; cbn [Py.any Py.lstrip]; [reflexivity|].
  intros H. apply orb_false_iff in H. destruct H as [Hc Hs].
  apply negb_false_iff in Hc. rewrite Hc. now apply IH.
Qed.

(** X13. A part made of white space only (an empty part included, as after
    a trailing comma) has the empty token, which is refused as an invalid
    literal in base 10. *)
Theorem blank_part_refused part :
  Py.any (fun c => negb (Py.isspace c)) part = false ->
  token_of part = ""
  /\ part_ok part = false
  /\ parse_token (token_of part)
     = Raise (ValueError (InvalidLiteral 10 "")).
Proof.
  intros H.
  assert (E : token_of part = "")
    by (unfold token_of, Py.strip; rewrite (lstrip_blank part H); reflexivity).
  unfold part_ok. rewrite E. repeat split.
Qed.

(** X14. A token of two hexadecimal digits of which one is a letter is read
    in base 16, with or without the prefix [0x] or [0X] and in either case
    of the letters: the text appended is the token in lower case, and it
    stands for the same byte. *)
Theorem hex_token_lowercased a b :
  is_hex_digit a = true -> is_hex_digit b = true ->
  hex_letter a || hex_letter b = true ->
  let token := String a (String b "") in
  parse_token (token_of token) = Ok (Py.lower token)
  /\ parse_token (token_of ("0x" ++ token)) = Ok (Py.lower token)
  /\ parse_token (token_of ("0X" ++ token)) = Ok (Py.lower token)
  /\ hex_byte_value (Py.lower token) = hex_byte_value token.
Proof.
  intros Ha Hb Hl. apply hex_digit_cases in Ha, Hb.
  pose (same := fun (r : result string) (t : string) =>
                  match r with Ok h => String.eqb h t | Raise _ => false end).
  pose (P := fun a b =>
               let token := String a (String b "") in
               implb (hex_letter a || hex_letter b)
                 (same (parse_token (token_of token)) (Py.lower token)
                  && same (parse_token (token_of ("0x" ++ token))) (Py.lower token)
                  && same (parse_token (token_of ("0X" ++ token))) (Py.lower token)
                  && (hex_byte_value (Py.lower token) =? hex_byte_value token))).
  assert (HP : forallb (fun a => forallb (P a) hex_chars) hex_chars = true)
    by (vm_compute; reflexivity).
  rewrite forallb_forall in HP. specialize (HP a Ha).
  rewrite forallb_forall in HP. specialize (HP b Hb).
  unfold P in HP. rewrite Hl in HP. cbn [implb] in HP.
  repeat (apply andb_prop in HP; destruct HP as [HP ?]).
  assert (Hsame : forall r t, same r t = true -> r = Ok t).
  { intros [h|e] t Hs; cbn in Hs; [|discriminate].
    apply String.eqb_eq in Hs. now subst. }
  cbn zeta. repeat split; try (apply Hsame; assumption). lia.
Qed.

(** X15. The parser does not read back the texts it produces: the two
    digits of a byte are read in base 16 only when one of them is a letter,
    and in base 10 otherwise, so that [10] (the byte 16) comes back as [0a];
    they come back unchanged exactly when a letter occurs or the byte is
    below 10. *)
Theorem parse_token_own_format v :
  is_byte v ->
  parse_token (token_of (Py.format_02x v))
  = Ok (Py.format_02x
          (if (10 <=? v / 16) || (10 <=? v mod 16) then v
           else 10 * (v / 16) + v mod 16))
  /\ (parse_token (token_of (Py.format_02x v)) = Ok (Py.format_02x v)
      <-> 10 <= v / 16 \/ 10 <= v mod 16 \/ v < 10).
Proof.
  intros Hv.
  pose (P := fun v =>
               match parse_token (token_of (Py.format_02x v)) with
               | Ok h =>
                   String.eqb h
                     (Py.format_02x
                        (if (10 <=? v / 16) || (10 <=? v mod 16) then v
                         else 10 * (v / 16) + v mod 16))
                   && Bool.eqb (String.eqb h (Py.format_02x v))
                        ((10 <=? v / 16) || (10 <=? v mod 16) || (v <? 10))
               | Raise _ => false
               end).
  assert (HP : P v = true)
    by (apply (range_check P 256); [vm_compute; reflexivity | unfold is_byte in Hv; lia]).
  unfold P in HP.
  destruct (parse_token (token_of (Py.format_02x v))) as [h|e]; [|discriminate].
  apply andb_prop in HP. destruct HP as [H1 H2].
  apply String.eqb_eq in H1. apply Bool.eqb_prop in H2.
  split; [now rewrite H1|]. split.
  - intros [= E]. rewrite E, String.eqb_refl in H2. symmetry in H2.
    apply orb_prop in H2. destruct H2 as [H2|H2]; [apply orb_prop in H2; destruct H2|]; lia.
  - intros Hc. f_equal. apply String.eqb_eq. rewrite H2.
    destruct Hc as [Hc|[Hc|Hc]].
    + destruct (Z.leb_spec 10 (v / 16)); [reflexivity | lia].
    + destruct (Z.leb_spec 10 (v mod 16)); [apply orb_true_r || (rewrite orb_true_r; reflexivity) | lia].
    + destruct (Z.ltb_spec v 10); [now rewrite orb_true_r | lia].
Qed.

(** ** Brackets *)

Lemma rstrip_snoc s c :
  Py.isspace c = false -> Py.rstrip (s ++ String c "") = s ++ String c "".
Proof.
  intros Hc. induction s as [|d s IH].
  - cbn. now rewrite Hc.
  - cbn [append Py.rstrip]. rewrite IH. destruct s; reflexivity.
Qed.

Lemma endswith_snoc s c : Py.endswith (s ++ String c "") (String c "") = true.
Proof.
  induction s as [|d s IH].
  - cbn [append]. rewrite endswith_cons. apply Ascii.eqb_refl.
  - cbn [append]. rewrite endswith_cons. destruct s; exact IH.
Qed.

Lemma drop_last_snoc s c : Py.drop_last (s ++ String c "") = s.
Proof.
  induction s as [|d s IH]; [reflexivity|].
  cbn [append]. destruct s as [|e s]; [reflexivity|].
  change (Py.drop_last (String d (String e s ++ String c "")))
    with (String d (Py.drop_last (String e s ++ String c ""))).
  now rewrite IH.
Qed.

(** X16. One pair of brackets around the text is removed, and only one:
    the parts of a text in brackets are those of what is between them, cut
    at the commas. *)
Theorem split_input_brackets s :
  split_input ("[" ++ s ++ "]") = Py.split "," s.
Proof.
  unfold split_input, Py.strip.
  change ("[" ++ s ++ "]") with (String "[" (s ++ "]")).
  change (Py.lstrip (String "[" (s ++ "]"))) with (String "[" (s ++ "]")).
  change (String "[" (s ++ "]")) with (String "[" s ++ "]").
  rewrite rstrip_snoc by reflexivity.
  rewrite endswith_snoc.
  change (String "[" s ++ "]") with (String "[" (s ++ "]")).
  assert (Hs : Py.startswith (String "[" (s ++ "]")) "[" = true)
    by (unfold Py.startswith; cbn [String.prefix append]; destruct s; reflexivity).
  rewrite Hs. cbn [andb]. unfold Py.slice_1_m1. cbn [Py.drop].
  now rewrite drop_last_snoc.
Qed.

(** ** The further properties at sample inputs *)

Lemma encode_base58_values_sample :
  Py.comprehension (fun x => Py.int x 16) ["0x00"; " 7 "; "F"] = Ok [0; 7; 15]
  /\ Forall is_byte [0; 7; 15]
  /\ encode_base58 ["0x00"; " 7 "; "F"] = Ok "1YA".
Proof.
  assert (H : Py.comprehension (fun x => Py.int x 16) ["0x00"; " 7 "; "F"]
              = Ok [0; 7; 15]) by reflexivity.
  assert (Hb : Forall is_byte [0; 7; 15]) by (apply is_byte_check; reflexivity).
  split; [exact H|]. split; [exact Hb|].
  exact (encode_base58_values ["0x00"; " 7 "; "F"] [0; 7; 15] H Hb).
Defined.

Lemma encode_base58_range_error_sample :
  Py.comprehension (fun x => Py.int x 16) ["00"; "100"; "-1"] = Ok [0; 256; -1]
  /\ ~ Forall is_byte [0; 256; -1]
  /\ encode_base58 ["00"; "100"; "-1"] = Raise (ValueError ByteMustBeInRange).
Proof.
  assert (H : Py.comprehension (fun x => Py.int x 16) ["00"; "100"; "-1"]
              = Ok [0; 256; -1]) by reflexivity.
  assert (Hb : ~ Forall is_byte [0; 256; -1]).
  { intros Hf. apply Forall_inv_tail, Forall_inv in Hf. unfold is_byte in Hf. lia. }
  split; [exact H|]. split; [exact Hb|].
  exact (encode_base58_range_error ["00"; "100"; "-1"] [0; 256; -1] H Hb).
Defined.

Lemma encode_base58_literal_error_sample :
  Py.comprehension (fun x => Py.int x 16) ["00"] = Ok [0]
  /\ Py.int "zz" 16 = Raise (ValueError (InvalidLiteral 16 "zz"))
  /\ encode_base58 ["00"; "zz"; "01"]
     = Raise (ValueError (InvalidLiteral 16 "zz")).
Proof.
  assert (H : Py.comprehension (fun x => Py.int x 16) ["00"] = Ok [0])
    by reflexivity.
  assert (Hx : Py.int "zz" 16 = Raise (ValueError (InvalidLiteral 16 "zz")))
    by reflexivity.
  split; [exact H|]. split; [exact Hx|].
  exact (encode_base58_literal_error ["00"] "zz" ["01"] [0] _ H Hx).
Defined.

Lemma decode_encode_base58_sample :
  encode_base58 ["00"; "fF"] = Ok "15Q"
  /\ exists vs,
      Py.comprehension (fun x => Py.int x 16) ["00"; "fF"] = Ok vs
      /\ decode "15Q" = Some vs
      /\ forall other ws,
          encode_base58 other = Ok "15Q" ->
          Py.comprehension (fun x => Py.int x 16) other = Ok ws -> ws = vs.
Proof.
  assert (H : encode_base58 ["00"; "fF"] = Ok "15Q") by reflexivity.
  split; [exact H | exact (decode_encode_base58 ["00"; "fF"] "15Q" H)].
Defined.

Lemma encode_base58_leading_ones_sample :
  encode_base58 ["00"; "00"; "01"; "00"] = Ok "115R"
  /\ Py.comprehension (fun x => Py.int x 16) ["00"; "00"; "01"; "00"]
     = Ok [0; 0; 1; 0]
  /\ count_ones "115R" = leading_zeros [0; 0; 1; 0].
Proof.
  assert (H : encode_base58 ["00"; "00"; "01"; "00"] = Ok "115R")
    by reflexivity.
  assert (Hv : Py.comprehension (fun x => Py.int x 16) ["00"; "00"; "01"; "00"]
               = Ok [0; 0; 1; 0]) by reflexivity.
  split; [exact H|]. split; [exact Hv|].
  exact (encode_base58_leading_ones _ _ _ H Hv).
Defined.

Lemma encode_base58_zero_in_front_sample :
  Py.int "0x00" 16 = Ok 0
  /\ encode_base58 ["ff"] = Ok "5Q"
  /\ encode_base58 ["0x00"; "ff"] = Ok "15Q".
Proof.
  assert (Hz : Py.int "0x00" 16 = Ok 0) by reflexivity.
  assert (H : encode_base58 ["ff"] = Ok "5Q") by reflexivity.
  split; [exact Hz|]. split; [exact H|].
  exact (encode_base58_zero_in_front "0x00" ["ff"] "5Q" Hz H).
Defined.

Lemma encode_length_bounds_sample :
  valid_input sample_bytes
  /\ exists s, encode sample_bytes = Ok s
               /\ (64 <= String.length s <= 88)%nat.
Proof.
  assert (H : valid_input sample_bytes)
    by (apply valid_input_check; reflexivity).
  split; [exact H | exact (encode_length_bounds sample_bytes H)].
Defined.

Lemma parse_input_returns_64_hex_sample :
  parse_input sample_text_ok = ([], Ok (repeat "00" 63 ++ ["01"])%list)
  /\ List.length (repeat "00" 63 ++ ["01"])%list = 64%nat
  /\ Forall (fun h => two_digit_hex h /\ Py.lower h = h)
       (repeat "00" 63 ++ ["01"])%list.
Proof.
  assert (H : parse_input sample_text_ok
              = ([], Ok (repeat "00" 63 ++ ["01"])%list)) by reflexivity.
  destruct (parse_input_returns_64_hex sample_text_ok [] _ H)
    as (_ & Hlen & _ & Hhex & _).
  split; [exact H|]. split; [exact Hlen | exact Hhex].
Defined.

Lemma main_prints_encoding_sample :
  List.length (split_input sample_text_ok) = 64%nat
  /\ forallb part_ok (split_input sample_text_ok) = true
  /\ main sample_text_ok
     = ([MsgPrompt; MsgHeader;
         MsgEncoded
           (Py.repeat_string "1"
              (leading_zeros (map part_value (split_input sample_text_ok)))
            ++ base58_digits
                 (magnitude (map part_value (split_input sample_text_ok))))],
        Ok tt).
Proof.
  assert (Hlen : List.length (split_input sample_text_ok) = 64%nat)
    by reflexivity.
  assert (Hok : forallb part_ok (split_input sample_text_ok) = true)
    by reflexivity.
  split; [exact Hlen|]. split; [exact Hok|].
  exact (main_prints_encoding sample_text_ok Hlen Hok).
Defined.


Lemma blank_part_refused_sample :
  Py.any (fun c => negb (Py.isspace c)) "  " = false
  /\ token_of "  " = ""
  /\ part_ok "  " = false
  /\ parse_token (token_of "  ") = Raise (ValueError (InvalidLiteral 10 "")).
Proof.
  assert (H : Py.any (fun c => negb (Py.isspace c)) "  " = false)
    by reflexivity.
  split; [exact H | exact (blank_part_refused "  " H)].
Defined.

Lemma hex_token_lowercased_sample :
  parse_token (token_of "1A") = Ok "1a"
  /\ parse_token (token_of "0x1A") = Ok "1a"
  /\ parse_token (token_of "0X1A") = Ok "1a"
  /\ hex_byte_value "1a" = hex_byte_value "1A".
Proof.
  exact (hex_token_lowercased "1" "A" eq_refl eq_refl eq_refl).
Defined.

Lemma parse_token_own_format_sample :
  is_byte 16
  /\ Py.format_02x 16 = "10"
  /\ parse_token (token_of (Py.format_02x 16)) = Ok "0a".
Proof.
  assert (H : is_byte 16) by (unfold is_byte; lia).
  split; [exact H|]. split; [reflexivity|].
  exact (proj1 (parse_token_own_format 16 H)).
Defined.

(** ** [bytes_to_int] and the number the output denotes *)

Lemma bytes_to_int_inv byte_list m :
  bytes_to_int byte_list = Ok m ->
  exists vs,
    Py.comprehension (fun x => Py.int x 16) byte_list = Ok vs
    /\ Forall is_byte vs /\ m = magnitude vs.
Proof.
  unfold bytes_to_int. intros H.
  destruct (Py.comprehension _ byte_list) as [vs|e] eqn:E; [|discriminate].
  cbn [rbind] in H. exists vs. split; [reflexivity|].
  destruct (Forall_dec is_byte is_byte_dec vs) as [Hb|Hb].
  - rewrite (bytearray_bytes vs Hb) in H. cbn [rbind] in H.
    injection H as <-. split; [exact Hb | apply from_bytes_big_magnitude].
  - rewrite (bytearray_not_bytes vs Hb) in H. discriminate.
Qed.

Lemma comprehension_length {A B} (f : A -> result B) l :
  forall ys, Py.comprehension f l = Ok ys -> List.length ys = List.length l.
Proof.
  induction l as [|x l IH]; intros ys H.
  - cbn in H. now injection H as <-.
  - apply comprehension_inv in H. destruct H as (y & ys' & _ & H & ->).
    cbn. now rewrite (IH ys' H).
Qed.

(** X17. The number [bytes_to_int] returns for n texts is at least 0 and
    below 256^n (below 2^512 for 64 of them), and a zero byte in front does
    not change it. *)
Theorem bytes_to_int_range byte_list m zero_byte :
  bytes_to_int byte_list = Ok m ->
  Py.int zero_byte 16 = Ok 0 ->
  0 <= m < 256 ^ Z.of_nat (List.length byte_list)
  /\ bytes_to_int (zero_byte :: byte_list) = Ok m.
Proof.
  intros H Hz. destruct (bytes_to_int_inv _ _ H) as (vs & Hvs & Hb & ->).
  split.
  - rewrite <- (comprehension_length _ _ _ Hvs). now apply magnitude_range.
  - unfold bytes_to_int. cbn [Py.comprehension]. rewrite Hz. cbn [rbind].
    rewrite Hvs. cbn [rbind].
    rewrite (bytearray_bytes (0 :: vs))
      by (constructor; [unfold is_byte; lia | exact Hb]).
    cbn [rbind]. rewrite from_bytes_big_magnitude. cbn [magnitude].
    now rewrite Z.mul_0_l, Z.add_0_l.
Qed.

(** X18. Read as a numeral in base 58, most significant symbol first, the
    text [encode_base58] returns is the number [bytes_to_int] returns. *)
Theorem encode_base58_denotes byte_list s :
  encode_base58 byte_list = Ok s ->
  exists m, bytes_to_int byte_list = Ok m /\ base58_value s 0 = Some m.
Proof.
  intros H. destruct (encode_base58_ok_inv _ _ H) as (vs & Hvs & Hb & ->).
  exists (magnitude vs). split.
  - unfold bytes_to_int. rewrite Hvs. cbn [rbind].
    rewrite (bytearray_bytes vs Hb). cbn [rbind].
    now rewrite from_bytes_big_magnitude.
  - rewrite base58_value_repeat. apply base58_value_digits.
    apply (magnitude_range vs Hb).
Qed.

(** ** How many parts a text has *)

(** X19. The parts of a text are one more than its commas, so that
    [parse_input] goes on to read the parts exactly when the text has 63
    commas; a text without a comma, the empty one included, is one part. *)
Theorem parts_are_commas_plus_one input_str :
  List.length (split_input input_str) = S (count_char "," input_str)
  /\ (count_char "," input_str = 63%nat
      <-> parse_input input_str = parse_parts (split_input input_str) [])
  /\ (count_char "," input_str <> 63%nat
      <-> parse_input input_str
          = ([MsgLengthError (S (count_char "," input_str))],
             Raise (SystemExit 1))).
Proof.
  assert (E : List.length (split_input input_str) = S (count_char "," input_str))
    by (rewrite split_input_length; apply split_length).
  assert (Hnot : forall parts byte_list got,
             parse_parts parts byte_list
             <> ([MsgLengthError got], Raise (SystemExit 1))).
  { intros parts byte_list got H.
    destruct (parse_parts_outcome parts byte_list) as [Hok | (tok & ve & Herr)].
    - rewrite (parse_parts_ok _ _ Hok) in H. discriminate.
    - rewrite Herr in H. discriminate. }
  split; [exact E|]. split; split.
  - intros Hc. apply parse_input_right_length. lia.
  - intros H. destruct (Nat.eq_dec (count_char "," input_str) 63) as [|Hn];
      [assumption|]. exfalso.
    rewrite parse_input_wrong_length in H by lia.
    symmetry in H. exact (Hnot _ _ _ H).
  - intros Hc. rewrite parse_input_wrong_length by lia. now rewrite E.
  - intros H Hc. rewrite parse_input_right_length in H by lia.
    exact (Hnot _ _ _ H).
Qed.

Lemma bytes_to_int_range_sample :
  bytes_to_int ["ff"; "ff"] = Ok 65535
  /\ Py.int "00" 16 = Ok 0
  /\ 0 <= 65535 < 256 ^ Z.of_nat (List.length ["ff"; "ff"])
  /\ bytes_to_int ["00"; "ff"; "ff"] = Ok 65535.
Proof.
  assert (H : bytes_to_int ["ff"; "ff"] = Ok 65535) by reflexivity.
  assert (Hz : Py.int "00" 16 = Ok 0) by reflexivity.
  split; [exact H|]. split; [exact Hz|].
  exact (bytes_to_int_range ["ff"; "ff"] 65535 "00" H Hz).
Defined.

Lemma encode_base58_denotes_sample :
  encode_base58 ["00"; "fF"] = Ok "15Q"
  /\ exists m, bytes_to_int ["00"; "fF"] = Ok m
               /\ base58_value "15Q" 0 = Some m.
Proof.
  assert (H : encode_base58 ["00"; "fF"] = Ok "15Q") by reflexivity.
  split; [exact H | exact (encode_base58_denotes ["00"; "fF"] "15Q" H)].
Defined.
